(** * Handler lifecycle of vitkuz-serverless-aurora-test

    A shallow embedding of [src/functions/base-handler]: the abstract
    [BaseHandler] with its [execute] template method, the
    [CognitoBaseHandler] and the [APIGatewayBaseHandler].

    JavaScript values are an inductive type, error objects carry the
    reference they were allocated at, and a method body is a computation
    that threads the state of the context container, writes to the logger
    and completes normally or by throwing. *)

From Stdlib Require Import ZArith String Ascii List Bool.
From stdpp Require Import base strings list gmap pretty.

Set Warnings "-register-all".

Open Scope string_scope.
Open Scope Z_scope.

(** ** JavaScript values *)

(** An object created by [new Error(msg)] or by a subclass of [Error]:
    [err_ref] is the reference of the object (two objects are the same
    object when the references agree), [err_name] the name of its class. *)
Record ErrorObj := mkError {
  err_ref : nat;
  err_name : string;
  err_message : string
}.

(** The values a handler can throw, log or receive.  Numbers are the
    integers; an object is the list of its own properties in insertion
    order; [JsError] is an object with [Error.prototype] in its chain. *)
Inductive JsValue :=
| JsUndefined
| JsNull
| JsBool (b : bool)
| JsNumber (n : Z)
| JsString (s : string)
| JsArray (items : list JsValue)
| JsObject (props : list (string * JsValue))
| JsError (e : ErrorObj).

(** [error instanceof Error] *)
Definition instanceof_Error (error : JsValue) : option ErrorObj :=
  match error with
  | JsError e => Some e
  | _ => None
  end.

(** ** The context container *)

Inductive Level := InfoLevel | ErrorLevel.

(** One call of [logger.info(msg, meta?)] or [logger.error(msg, meta?)]. *)
Record LogEntry := mkLog {
  level : Level;
  message : string;
  meta : option JsValue
}.

(** What a computation can read and change: the state of the services held
    by the context container, and the next free object reference.  The
    logger is write-only, so its output is kept apart (see [Run]). *)
Record World := mkWorld {
  next_ref : nat;
  services : gmap string JsValue
}.

(** ** Computations *)

Inductive Completion (A : Type) :=
| Normal (a : A)
| Throw (v : JsValue).
Arguments Normal {A} a.
Arguments Throw {A} v.

(** The result of running a computation: how it completed, what it wrote
    (in order), and the world it left. *)
Record Run (O A : Type) := mkRun {
  outcome : Completion A;
  emitted : list O;
  final : World
}.
Arguments mkRun {O A} _ _ _.
Arguments outcome {O A} _.
Arguments emitted {O A} _.
Arguments final {O A} _.

Definition Js (O A : Type) : Type := World -> Run O A.

Definition ret {O A} (a : A) : Js O A :=
  fun w => mkRun (Normal a) [] w.

Definition throw {O A} (v : JsValue) : Js O A :=
  fun w => mkRun (Throw v) [] w.

Definition bind {O A B} (m : Js O A) (k : A -> Js O B) : Js O B :=
  fun w =>
    let r := m w in
    match outcome r with
    | Normal a =>
        let r' := k a (final r) in
        mkRun (outcome r') (emitted r ++ emitted r') (final r')
    | Throw v => mkRun (Throw v) (emitted r) (final r)
    end.

(** [try { body } catch (error) { handler }] *)
Definition try_catch {O A} (body : Js O A) (handler : JsValue -> Js O A) : Js O A :=
  fun w =>
    let r := body w in
    match outcome r with
    | Normal a => r
    | Throw v =>
        let r' := handler v (final r) in
        mkRun (outcome r') (emitted r ++ emitted r') (final r')
    end.

Definition emit {O} (o : O) : Js O unit :=
  fun w => mkRun (Normal tt) [o] w.

#[global] Instance Js_ret {O} : MRet (Js O) := fun A => ret.
#[global] Instance Js_bind {O} : MBind (Js O) := fun A B k m => bind m k.

(** [new C(msg)] for [C] the class [Error] or one that extends it: a fresh
    object, at the next free reference. *)
Definition construct_error {O} (class msg : string) : Js O ErrorObj :=
  fun w =>
    mkRun (Normal (mkError (next_ref w) class msg)) []
          (mkWorld (S (next_ref w)) (services w)).

(** [new Error(msg)] *)
Definition new_Error {O} (msg : string) : Js O ErrorObj :=
  construct_error "Error" msg.

(** [context.logger]; a call never throws. *)
Module logger.
Definition info (msg : string) (m : option JsValue) : Js LogEntry unit :=
  emit (mkLog InfoLevel msg m).
Definition error (msg : string) (m : option JsValue) : Js LogEntry unit :=
  emit (mkLog ErrorLevel msg m).
End logger.

(** ** src/functions/base-handler/index.ts *)

Module BaseHandler.

(** An instance of a concrete subclass: the [event] field and the two
    abstract methods, closed over the instance.  [context] is the world
    every computation threads.  No method of the hierarchy assigns to
    [this.event]. *)
Record BaseHandler (TEvent TResult : Type) := mkHandler {
  event : TEvent;
  handleRequest : Js LogEntry TResult;
  handleError : ErrorObj -> Js LogEntry TResult
}.
Arguments mkHandler {TEvent TResult} _ _ _.
Arguments event {TEvent TResult} _.
Arguments handleRequest {TEvent TResult} _.
Arguments handleError {TEvent TResult} _ _.

(** What [execute] is seen to do: a log line it writes itself, or one
    call of an abstract method together with the lines that call wrote. *)
Inductive Step :=
| ByExecute (l : LogEntry)
| InHandleRequest (ls : list LogEntry)
| InHandleError (arg : ErrorObj) (ls : list LogEntry).

Definition own {A} (m : Js LogEntry A) : Js Step A :=
  fun w => let r := m w in
           mkRun (outcome r) (map ByExecute (emitted r)) (final r).

Definition call_handleRequest {TEvent TResult}
    (this : BaseHandler TEvent TResult) : Js Step TResult :=
  fun w => let r := handleRequest this w in
           mkRun (outcome r) [InHandleRequest (emitted r)] (final r).

Definition call_handleError {TEvent TResult}
    (this : BaseHandler TEvent TResult) (error : ErrorObj) : Js Step TResult :=
  fun w => let r := handleError this error w in
           mkRun (outcome r) [InHandleError error (emitted r)] (final r).

Definition execute {TEvent TResult}
    (this : BaseHandler TEvent TResult) : Js Step TResult :=
  own (logger.info "Execution started" None) ;;
  try_catch
    (result ← call_handleRequest this;
     own (logger.info "Request handled successfully" None) ;;
     mret result)
    (fun error =>
       match instanceof_Error error with
       | Some e => call_handleError this e
       | None =>
           own (logger.error "Unknown error occurred"
                  (Some (JsObject [("data", JsObject [("error", error)])]))) ;;
           genericError ← new_Error "Unknown error occurred";
           call_handleError this genericError
       end).

End BaseHandler.


(** ** src/functions/base-handler/cognito-base-handler.ts *)

Module CognitoBaseHandler.

(** [TEvent] is any JavaScript value; the handler's result is an event too. *)
Definition handleError (event : JsValue) (error : ErrorObj) : Js LogEntry JsValue :=
  logger.error "Error occurred in Cognito handler"
    (Some (JsObject [("error", JsError error); ("event", event)])) ;;
  throw (JsError error).

(** An instance of a concrete subclass, which supplies [handleRequest]. *)
Definition CognitoBaseHandler (event : JsValue)
    (handleRequest : JsValue -> Js LogEntry JsValue)
  : BaseHandler.BaseHandler JsValue JsValue :=
  BaseHandler.mkHandler event (handleRequest event) (handleError event).

End CognitoBaseHandler.

(** ** What is observed of one invocation *)

Import BaseHandler.

(** The arguments of the calls of [handleError], in order. *)
Definition handleError_calls (t : list Step) : list ErrorObj :=
  flat_map (fun s => match s with InHandleError e _ => [e] | _ => [] end) t.

(** The number of calls of [handleRequest]. *)
Definition handleRequest_calls (t : list Step) : nat :=
  length (List.filter (fun s => match s with InHandleRequest _ => true | _ => false end) t).

(** The lines [execute] wrote itself. *)
Definition own_logs (t : list Step) : list LogEntry :=
  flat_map (fun s => match s with ByExecute l => [l] | _ => [] end) t.

(** The lines written inside the calls of [handleError]. *)
Definition handleError_logs (t : list Step) : list LogEntry :=
  flat_map (fun s => match s with InHandleError _ ls => ls | _ => [] end) t.

(** The lines of the lifecycle: those of [execute] and of [handleError],
    without what the business logic in [handleRequest] logged. *)
Definition lifecycle_logs (t : list Step) : list LogEntry :=
  flat_map (fun s => match s with
                     | ByExecute l => [l]
                     | InHandleRequest _ => []
                     | InHandleError _ ls => ls
                     end) t.

(** Everything the logger received, in order. *)
Definition logger_output (t : list Step) : list LogEntry :=
  flat_map (fun s => match s with
                     | ByExecute l => [l]
                     | InHandleRequest ls => ls
                     | InHandleError _ ls => ls
                     end) t.

Definition start_log : LogEntry := mkLog InfoLevel "Execution started" None.
Definition success_log : LogEntry := mkLog InfoLevel "Request handled successfully" None.
Definition unknown_error_log (thrown : JsValue) : LogEntry :=
  mkLog ErrorLevel "Unknown error occurred"
        (Some (JsObject [("data", JsObject [("error", thrown)])])).

(** The error [execute] makes for a thrown value that is not an error,
    when it makes it in the world [w1], and the world it leaves. *)
Definition genericError (w1 : World) : ErrorObj :=
  mkError (next_ref w1) "Error" "Unknown error occurred".

Definition after_new_Error (w1 : World) : World :=
  mkWorld (S (next_ref w1)) (services w1).

(** The line [CognitoBaseHandler.handleError] writes. *)
Definition cognito_error_log (error : ErrorObj) (event : JsValue) : LogEntry :=
  mkLog ErrorLevel "Error occurred in Cognito handler"
        (Some (JsObject [("error", JsError error); ("event", event)])).

Definition is_error_log (l : LogEntry) : bool :=
  match level l with ErrorLevel => true | InfoLevel => false end.

Definition is_start_log (l : LogEntry) : bool :=
  match level l with
  | InfoLevel => String.eqb (message l) "Execution started"
  | ErrorLevel => false
  end.

Definition is_success_log (l : LogEntry) : bool :=
  match level l with
  | InfoLevel => String.eqb (message l) "Request handled successfully"
  | ErrorLevel => false
  end.

Definition count (p : LogEntry -> bool) (ls : list LogEntry) : nat :=
  length (List.filter p ls).

(** ** The HTTP trigger: aws-lambda's event and result types *)

(** [APIGatewayProxyEvent] is the instance at [string | null] of the body;
    [APIGatewayParsedEvent] the one at [Record<string, unknown>]. *)
Record APIGatewayEvent (B : Type) := mkEvent {
  body : B;
  headers : gmap string string;
  httpMethod : string;
  path : string;
  pathParameters : option (gmap string string);
  queryStringParameters : option (gmap string string);
  isBase64Encoded : bool;
  requestContext : JsValue
}.
Arguments mkEvent {B} _ _ _ _ _ _ _ _.
Arguments body {B} _.
Arguments headers {B} _.
Arguments httpMethod {B} _.
Arguments path {B} _.
Arguments pathParameters {B} _.
Arguments queryStringParameters {B} _.
Arguments isBase64Encoded {B} _.
Arguments requestContext {B} _.

Definition APIGatewayProxyEvent : Type := APIGatewayEvent (option string).
Definition APIGatewayParsedEvent : Type := APIGatewayEvent (list (string * JsValue)).

(** The object literal [{ ...event, body: b }]: a new object with the
    properties of [event] and the body replaced. *)
Definition spread_with_body {B C} (event : APIGatewayEvent B) (b : C) : APIGatewayEvent C :=
  mkEvent b (headers event) (httpMethod event) (path event)
          (pathParameters event) (queryStringParameters event)
          (isBase64Encoded event) (requestContext event).

Record APIGatewayProxyResult := mkResult {
  statusCode : Z;
  resultHeaders : gmap string string;
  resultBody : string
}.

(** [Input<TResponse>] of '@utils/response': status code, body and headers. *)
Record Input := mkInput {
  inputStatusCode : Z;
  inputBody : JsValue;
  inputHeaders : gmap string string
}.

(** A role tag of '@utils/auth/types'. *)
Definition AuthRoles : Type := string.

(** The condition of [body ? a : b] for a body of type [string | null]:
    [null] and the empty string are falsy. *)
Definition truthy (b : option string) : bool :=
  match b with
  | None => false
  | Some s => negb (String.eqb s "")
  end.

(** The functions [APIGatewayBaseHandler] imports from '@utils'; each but
    [formatResponse] is passed the context, that is, runs in the world. *)
Module utils.
Record Mediators (ZodSchema : Type) := mkMediators {
  zodParser : ZodSchema -> APIGatewayParsedEvent -> Js LogEntry JsValue;
  parseJSONBody : option string -> gmap string string ->
                  Js LogEntry (list (string * JsValue));
  handleError : ErrorObj -> APIGatewayProxyEvent -> Js LogEntry APIGatewayProxyResult;
  checkAccess : APIGatewayProxyEvent -> list AuthRoles -> Js LogEntry unit;
  formatResponse : Input -> Js LogEntry APIGatewayProxyResult
}.
Arguments mkMediators {ZodSchema} _ _ _ _ _.
Arguments zodParser {ZodSchema} _ _ _.
Arguments parseJSONBody {ZodSchema} _ _ _.
Arguments handleError {ZodSchema} _ _ _.
Arguments checkAccess {ZodSchema} _ _ _.
Arguments formatResponse {ZodSchema} _ _.
End utils.

(** ** src/functions/base-handler/api-gateway-base-handler (unnamed/part_000) *)

Module APIGatewayBaseHandler.
Section Class.
Context {ZodSchema : Type}.
Variable M : utils.Mediators ZodSchema.

(** The fields of an instance: [event] of the base class and [schema]. *)
Record This := mkThis {
  event : APIGatewayProxyEvent;
  schema : ZodSchema
}.

Definition checkAccess (this : This) (roles : list AuthRoles) : Js LogEntry unit :=
  utils.checkAccess M (event this) roles.

Definition parseJSONBody (this : This) (body : option string)
    (headers : gmap string string) : Js LogEntry (list (string * JsValue)) :=
  utils.parseJSONBody M body headers.

Definition parseSchema (this : This) : Js LogEntry JsValue :=
  parsed ← (if truthy (body (event this))
            then parseJSONBody this (body (event this)) (headers (event this))
            else mret []);
  let customEvent : APIGatewayParsedEvent := spread_with_body (event this) parsed in
  utils.zodParser M (schema this) customEvent.

Definition formatResponse (this : This) (response : Input)
  : Js LogEntry APIGatewayProxyResult :=
  utils.formatResponse M response.

Definition handleError (this : This) (error : ErrorObj)
  : Js LogEntry APIGatewayProxyResult :=
  utils.handleError M error (event this).

(** An instance of a concrete subclass, which supplies [handleRequest]. *)
Definition APIGatewayBaseHandler (this : This)
    (handleRequest : This -> Js LogEntry APIGatewayProxyResult)
  : BaseHandler.BaseHandler APIGatewayProxyEvent APIGatewayProxyResult :=
  BaseHandler.mkHandler (event this) (handleRequest this) (handleError this).

End Class.
Arguments This : clear implicits.
End APIGatewayBaseHandler.

(** ** The mediators, which are not part of the sources

    '@utils/mediators/*', '@utils/auth' and '@utils/response' are imported
    by the handler but absent; the definitions of this module follow the
    specification (sections 4.2, 6, 7 and 8). *)

Module SpecModel.

Definition dquote : ascii := "034"%char.

Definition is_digit (c : ascii) : bool :=
  (48 <=? nat_of_ascii c)%nat && (nat_of_ascii c <=? 57)%nat.

Definition digit_value (c : ascii) : Z := Z.of_nat (nat_of_ascii c) - 48.

Fixpoint skip_ws (s : string) : string :=
  match s with
  | String c rest => if Ascii.eqb c " " then skip_ws rest else s
  | EmptyString => s
  end.

Fixpoint strip_prefix (p s : string) : option string :=
  match p, s with
  | EmptyString, _ => Some s
  | String a p', String b s' => if Ascii.eqb a b then strip_prefix p' s' else None
  | String _ _, EmptyString => None
  end.

(** The characters up to the closing quote; escapes are not supported. *)
Fixpoint read_string (s : string) : option (string * string) :=
  match s with
  | EmptyString => None
  | String c rest =>
      if Ascii.eqb c dquote then Some (EmptyString, rest)
      else if Ascii.eqb c "\" then None
      else '(str, r) ← read_string rest; Some (String c str, r)
  end.

Fixpoint read_digits (s : string) (acc : Z) : Z * string :=
  match s with
  | String c rest => if is_digit c then read_digits rest (10 * acc + digit_value c) else (acc, s)
  | EmptyString => (acc, s)
  end.

Definition read_number (s : string) : option (Z * string) :=
  match s with
  | String c rest =>
      if Ascii.eqb c "-" then
        match rest with
        | String d _ =>
            if is_digit d
            then let '(n, r) := read_digits rest 0 in Some (- n, r)
            else None
        | EmptyString => None
        end
      else if is_digit c then Some (read_digits s 0)
      else None
  | EmptyString => None
  end.

Definition read_key (s : string) : option (string * string) :=
  r ← strip_prefix (String dquote EmptyString) (skip_ws s);
  '(k, r1) ← read_string r;
  r2 ← strip_prefix ":" (skip_ws r1);
  Some (k, skip_ws r2).

Definition keyword (s : string) : option (JsValue * string) :=
  match strip_prefix "true" s, strip_prefix "false" s, strip_prefix "null" s with
  | Some r, _, _ => Some (JsBool true, r)
  | _, Some r, _ => Some (JsBool false, r)
  | _, _, Some r => Some (JsNull, r)
  | _, _, _ => None
  end.

(** A JSON text without escapes, fractions and exponents; the fuel bounds
    the number of values read. *)
Fixpoint parse_value (fuel : nat) (s : string) : option (JsValue * string) :=
  match fuel with
  | O => None
  | S fuel' =>
      match s with
      | EmptyString => None
      | String c rest =>
          if Ascii.eqb c dquote then
            '(str, r) ← read_string rest; Some (JsString str, r)
          else if Ascii.eqb c "{" then
            match strip_prefix "}" (skip_ws rest) with
            | Some r => Some (JsObject [], r)
            | None => '(ps, r) ← parse_members fuel' rest; Some (JsObject ps, r)
            end
          else if Ascii.eqb c "[" then
            match strip_prefix "]" (skip_ws rest) with
            | Some r => Some (JsArray [], r)
            | None => '(xs, r) ← parse_elements fuel' rest; Some (JsArray xs, r)
            end
          else if Ascii.eqb c "-" || is_digit c then
            '(n, r) ← read_number s; Some (JsNumber n, r)
          else keyword s
      end
  end
with parse_members (fuel : nat) (s : string) : option (list (string * JsValue) * string) :=
  match fuel with
  | O => None
  | S fuel' =>
      '(k, r) ← read_key s;
      '(v, r1) ← parse_value fuel' r;
      match strip_prefix "," (skip_ws r1) with
      | Some r2 => '(ps, r3) ← parse_members fuel' r2; Some ((k, v) :: ps, r3)
      | None => r2 ← strip_prefix "}" (skip_ws r1); Some ([(k, v)], r2)
      end
  end
with parse_elements (fuel : nat) (s : string) : option (list JsValue * string) :=
  match fuel with
  | O => None
  | S fuel' =>
      '(v, r1) ← parse_value fuel' (skip_ws s);
      match strip_prefix "," (skip_ws r1) with
      | Some r2 => '(xs, r3) ← parse_elements fuel' r2; Some (v :: xs, r3)
      | None => r2 ← strip_prefix "]" (skip_ws r1); Some ([v], r2)
      end
  end.

(** [JSON.parse(text)] where the text is to be an object. *)
Definition parse_json_object (text : string) : option (list (string * JsValue)) :=
  '(v, r) ← parse_value (S (String.length text)) (skip_ws text);
  match v, skip_ws r with
  | JsObject ps, EmptyString => Some ps
  | _, _ => None
  end.

(** [throw new C(msg)] *)
Definition fail_with {A} (class msg : string) : Js LogEntry A :=
  e ← construct_error class msg;
  throw (JsError e).

Definition is_json_content_type (headers : gmap string string) : bool :=
  match headers !! "content-type", headers !! "Content-Type" with
  | Some v, _ => bool_decide (is_Some (strip_prefix "application/json" v))
  | None, Some v => bool_decide (is_Some (strip_prefix "application/json" v))
  | None, None => false
  end.

(** Modelled from the spec: the JSON Body Parser of
    '@utils/mediators/json-body-parser', which is not in the sources:
    it returns a key-value mapping and fails with ParseError on content
    that is malformed for a JSON content type.  An absent body and a body
    that is not declared as JSON give the empty mapping. *)
Definition parseJSONBody (body : option string) (headers : gmap string string)
  : Js LogEntry (list (string * JsValue)) :=
  match body with
  | None => mret []
  | Some text =>
      if is_json_content_type headers then
        match parse_json_object text with
        | Some mapping => mret mapping
        | None => fail_with "ParseError" "Malformed JSON body"
        end
      else mret []
  end.

Inductive FieldType := TNumber | TString | TBoolean.

(** The schemas of the model: the fields the body must have. *)
Definition ZodSchema : Type := list (string * FieldType).

Definition has_type (t : FieldType) (v : JsValue) : bool :=
  match t, v with
  | TNumber, JsNumber _ => true
  | TString, JsString _ => true
  | TBoolean, JsBool _ => true
  | _, _ => false
  end.

Fixpoint get_prop (k : string) (props : list (string * JsValue)) : option JsValue :=
  match props with
  | [] => None
  | (k', v) :: rest => if String.eqb k k' then Some v else get_prop k rest
  end.

(** The validated fields, or the name of the first field that is missing
    or of the wrong type. *)
Fixpoint validate (schema : ZodSchema) (props : list (string * JsValue))
  : string + list (string * JsValue) :=
  match schema with
  | [] => inr []
  | (k, t) :: rest =>
      match get_prop k props with
      | Some v =>
          if has_type t v then
            match validate rest props with
            | inr fields => inr ((k, v) :: fields)
            | inl bad => inl bad
            end
          else inl k
      | None => inl k
      end
  end.

(** Modelled from the spec: the Schema Validator of
    '@utils/mediators/zod-parser', which is not in the sources:
    [validate(context, schema, derivedEvent)] returns the validated value
    and fails with ValidationError on a mismatch. *)
Definition zodParser (schema : ZodSchema) (customEvent : APIGatewayParsedEvent)
  : Js LogEntry JsValue :=
  match validate schema (body customEvent) with
  | inr fields => mret (JsObject fields)
  | inl bad => fail_with "ValidationError" ("Invalid field: " ++ bad)
  end.

(** The kinds the classifier knows, with the status of the client error
    each maps to. *)
Definition client_error_status (class : string) : option Z :=
  if String.eqb class "ValidationError" then Some 400
  else if String.eqb class "ParseError" then Some 400
  else if String.eqb class "AuthorizationError" then Some 403
  else None.

Definition generic_server_error : APIGatewayProxyResult :=
  mkResult 500 ∅ "Internal Server Error".

(** Modelled from the spec: the Error Classifier of
    '@utils/mediators/error-handler', which is not in the sources:
    [handle(context, error, event)] inspects the kind of the error and
    returns a response; a kind it does not know gives a generic
    server-error response.  The table of kinds is the one above. *)
Definition handleError (error : ErrorObj) (event : APIGatewayProxyEvent)
  : Js LogEntry APIGatewayProxyResult :=
  match client_error_status (err_name error) with
  | Some status => mret (mkResult status ∅ (err_name error ++ ": " ++ err_message error))
  | None => mret generic_server_error
  end.

(** Modelled from the spec: the Authorization mediator of '@utils/auth',
    which is not in the sources: [checkAccess(context, event, roles)] fails
    with AuthorizationError if the current actor holds none of the given
    roles.  How the roles of the actor are read off the context and the
    event is not specified, and is the parameter [actorRoles]. *)
Definition checkAccess (actorRoles : World -> APIGatewayProxyEvent -> list AuthRoles)
    (event : APIGatewayProxyEvent) (roles : list AuthRoles) : Js LogEntry unit :=
  fun w =>
    if existsb (fun role => existsb (String.eqb role) (actorRoles w event)) roles
    then ret tt w
    else fail_with "AuthorizationError" "Access denied" w.

Definition quoted (s : string) : string :=
  String dquote (s ++ String dquote EmptyString).

Fixpoint join (sep : string) (parts : list string) : string :=
  match parts with
  | [] => ""
  | [x] => x
  | x :: rest => x ++ sep ++ join sep rest
  end.

(** [JSON.stringify(v)] for strings without characters to escape. *)
Fixpoint stringify (v : JsValue) : string :=
  match v with
  | JsUndefined => "null"
  | JsNull => "null"
  | JsBool true => "true"
  | JsBool false => "false"
  | JsNumber n => pretty n
  | JsString s => quoted s
  | JsArray items => "[" ++ join "," (map stringify items) ++ "]"
  | JsObject props =>
      "{" ++ join "," (map (fun p => quoted (fst p) ++ ":" ++ stringify (snd p)) props) ++ "}"
  | JsError _ => "{}"
  end.

(** The response [format] builds: a function of its input alone. *)
Definition format (response : Input) : APIGatewayProxyResult :=
  mkResult (inputStatusCode response) (inputHeaders response)
           (stringify (inputBody response)).

(** Modelled from the spec: the Response Formatter of '@utils/response',
    which is not in the sources: [format(input)] is a pure, deterministic
    mapping from a [{statusCode, body, headers}]-shaped input to the
    response of the platform, and does not fail. *)
Definition formatResponse (response : Input) : Js LogEntry APIGatewayProxyResult :=
  mret (format response).

(** The mediators together, as [APIGatewayBaseHandler] imports them. *)
Definition mediators (actorRoles : World -> APIGatewayProxyEvent -> list AuthRoles)
  : utils.Mediators ZodSchema :=
  utils.mkMediators zodParser parseJSONBody handleError
                    (checkAccess actorRoles) formatResponse.

End SpecModel.

(** ** The statements compared with the code *)

(** A computation that throws nothing but errors of one class. *)
Definition throws_only {A} (class : string) (m : Js LogEntry A) : Prop :=
  forall w v, outcome (m w) = Throw v ->
    exists e, v = JsError e /\ err_name e = class.

(** "Either returns the validated value or fails with ValidationError". *)
Definition validated_or_ValidationError (c : Completion JsValue) : Prop :=
  match c with
  | Normal _ => True
  | Throw v => exists e, v = JsError e /\ err_name e = "ValidationError"
  end.

(** "Exactly one error log is emitted overall", for a failure of
    [handleRequest] with an error. *)
Definition exactly_one_error_log {TEvent TResult}
    (this : BaseHandler TEvent TResult) (w : World) : Prop :=
  forall e, outcome (handleRequest this w) = Throw (JsError e) ->
    count is_error_log (logger_output (emitted (execute this w))) = 1%nat.

(** "Exactly one start log and exactly one log out of success log and
    error log", over the lines of the lifecycle. *)
Definition one_start_one_terminal_log {TEvent TResult}
    (this : BaseHandler TEvent TResult) (w : World) : Prop :=
  let ls := lifecycle_logs (emitted (execute this w)) in
  count is_start_log ls = 1%nat /\
  (count is_success_log ls + count is_error_log ls = 1)%nat.

(** The mediators with another body parser. *)
Definition with_parser {ZodSchema} (M : utils.Mediators ZodSchema)
    (parser : option string -> gmap string string ->
              Js LogEntry (list (string * JsValue)))
  : utils.Mediators ZodSchema :=
  utils.mkMediators (utils.zodParser M) parser (utils.handleError M)
                    (utils.checkAccess M) (utils.formatResponse M).

(** ** Handlers to run the code on *)

Module Samples.

Definition w0 : World := mkWorld 0 ∅.

Definition signup : JsValue :=
  JsObject [("triggerSource", JsString "PreSignUp_SignUp");
            ("userName", JsString "alice")].

(** A Cognito trigger that accepts the event. *)
Definition accept (event : JsValue) : Js LogEntry JsValue :=
  logger.info "sign-up accepted" None ;;
  mret event.

(** A Cognito trigger that rejects the event with an [Error]. *)
Definition reject (event : JsValue) : Js LogEntry JsValue :=
  e ← construct_error "Error" "invalid token";
  throw (JsError e).

(** A Cognito trigger that throws a string. *)
Definition boom (event : JsValue) : Js LogEntry JsValue :=
  throw (JsString "boom").

(** Another trigger that throws a value that is not an error. *)
Definition boom_code (event : JsValue) : Js LogEntry JsValue :=
  throw (JsNumber 42).

Definition invalid_token : ErrorObj := mkError 0 "Error" "invalid token".

(** A subclass of [BaseHandler] whose [handleError] answers with a default
    and writes nothing. *)
Definition quiet : BaseHandler JsValue JsValue :=
  mkHandler signup (reject signup) (fun _ => mret JsNull).

Definition no_roles (w : World) (event : APIGatewayProxyEvent) : list AuthRoles := [].

Definition admin_only (w : World) (event : APIGatewayProxyEvent) : list AuthRoles :=
  ["admin"].

Definition json_headers : gmap string string :=
  {["content-type" := "application/json"]}.

Definition post (text : option string) : APIGatewayProxyEvent :=
  mkEvent text json_headers "POST" "/items" None None false JsNull.

Definition item_schema : SpecModel.ZodSchema := [("a", SpecModel.TNumber)].

(** The body [{"a":1}]. *)
Definition item_text : string := "{" ++ SpecModel.quoted "a" ++ ":1}".

Definition this_item : APIGatewayBaseHandler.This SpecModel.ZodSchema :=
  APIGatewayBaseHandler.mkThis (post (Some item_text)) item_schema.

Definition this_malformed : APIGatewayBaseHandler.This SpecModel.ZodSchema :=
  APIGatewayBaseHandler.mkThis (post (Some "{oops")) [].

Definition this_empty : APIGatewayBaseHandler.This SpecModel.ZodSchema :=
  APIGatewayBaseHandler.mkThis (post (Some "")) [].

Definition this_null : APIGatewayBaseHandler.This SpecModel.ZodSchema :=
  APIGatewayBaseHandler.mkThis (post None) [].

(** A body parser that fails whatever it is given. *)
Definition failing_parser (body : option string) (headers : gmap string string)
  : Js LogEntry (list (string * JsValue)) :=
  SpecModel.fail_with "ParseError" "never called".

(** A concrete HTTP handler: validate, then answer with the value. *)
Definition create_item (actorRoles : World -> APIGatewayProxyEvent -> list AuthRoles)
    (this : APIGatewayBaseHandler.This SpecModel.ZodSchema)
  : Js LogEntry APIGatewayProxyResult :=
  APIGatewayBaseHandler.checkAccess (SpecModel.mediators actorRoles) this ["admin"] ;;
  validated ← APIGatewayBaseHandler.parseSchema (SpecModel.mediators actorRoles) this;
  APIGatewayBaseHandler.formatResponse (SpecModel.mediators actorRoles) this
    (mkInput 200 (JsObject [("data", validated)]) ∅).

End Samples.

(** ** Values at run time: conversions and property access *)

(** [ToBoolean]: what [!v] and [v || d] test. *)
Definition to_boolean (v : JsValue) : bool :=
  match v with
  | JsUndefined => false
  | JsNull => false
  | JsBool b => b
  | JsNumber n => negb (n =? 0)
  | JsString s => negb (String.eqb s "")
  | JsArray _ => true
  | JsObject _ => true
  | JsError _ => true
  end.

(** [v || d] *)
Definition or_else (v d : JsValue) : JsValue :=
  if to_boolean v then v else d.

(** A value of type [string | undefined]. *)
Definition of_optional (o : option string) : JsValue :=
  match o with
  | Some s => JsString s
  | None => JsUndefined
  end.

Fixpoint own_property (k : string) (props : list (string * JsValue)) : JsValue :=
  match props with
  | [] => JsUndefined
  | (k', v) :: rest => if String.eqb k k' then v else own_property k rest
  end.

(** [undefined] and [null] have no properties. *)
Definition is_nullish (v : JsValue) : bool :=
  match v with
  | JsUndefined => true
  | JsNull => true
  | _ => false
  end.

(** The value of [v.k] for a [v] that has properties, and a name [k] that
    no built-in prototype defines (the sources read [host], [dbname],
    [username], [password], [port], [current_time]) or one of [message]
    and [name], which an error has. *)
Definition member (v : JsValue) (k : string) : JsValue :=
  match v with
  | JsObject props => own_property k props
  | JsError e =>
      if String.eqb k "message" then JsString (err_message e)
      else if String.eqb k "name" then JsString (err_name e)
      else JsUndefined
  | _ => JsUndefined
  end.

(** [v.k]: reading a property of [undefined] or [null] throws a TypeError,
    with the message of V8. *)
Definition get_member {O} (v : JsValue) (k : string) : Js O JsValue :=
  if is_nullish v then
    e ← construct_error "TypeError"
          ("Cannot read properties of "
             ++ match v with JsNull => "null" | _ => "undefined" end
             ++ " (reading '" ++ k ++ "')");
    throw (JsError e)
  else mret (member v k).

(** [try { body } catch (error) { handler } finally { finalizer }], for a
    finalizer without [return]: it runs last, and what it throws wins. *)
Definition try_catch_finally {O A} (body : Js O A) (handler : JsValue -> Js O A)
    (finalizer : Js O unit) : Js O A :=
  fun w =>
    let r := try_catch body handler w in
    let f := finalizer (final r) in
    match outcome f with
    | Normal _ => mkRun (outcome r) (emitted r ++ emitted f) (final f)
    | Throw v => mkRun (Throw v) (emitted r ++ emitted f) (final f)
    end.

(** ** The platform of the database scripts (unnamed/part_001) *)

(** The text of a query.  The statements are constants of the sources and
    are named here by the function that sends them. *)
Inductive Sql :=
| DropMetadataView        (* dropAllTablesAndViews, first query *)
| DropPublicTables        (* dropAllTablesAndViews, second query *)
| CreateTables            (* createSchema *)
| CreateMetadataView      (* createMetadataView *)
| InsertInitialCategory   (* insertInitialData *)
| InsertIntoMetadataView  (* testInsertMetadata *)
| SelectMetadataView      (* testSelectMetadata *)
| UpdateMetadataView      (* testUpdateMetadata *)
| DeleteFromMetadataView  (* testDeleteMetadata *)
| SelectNow.              (* 'SELECT NOW() AS current_time' *)

Module pg.
(** The argument of [new Client(...)]; [ssl] is [{ rejectUnauthorized }]. *)
Record ClientConfig := mkConfig {
  host : JsValue;
  database : JsValue;
  user : JsValue;
  password : JsValue;
  port : JsValue;
  rejectUnauthorized : bool
}.
Record QueryResult := mkQueryResult {
  rows : list JsValue
}.
End pg.

(** A call that leaves the program: it changes the world and returns or
    throws, and does not write to the console. *)
Definition Ext (A : Type) : Type := World -> Completion A * World.

(** What the scripts are run against: the environment variables, the two
    functions of [JSON], the Secrets Manager client (made for a region;
    [send] of a GetSecretValueCommand gives the [SecretString] of the
    answer) and the PostgreSQL client made from a configuration. *)
Record Platform := mkPlatform {
  env : gmap string string;
  JSON_parse : string -> JsValue + string;
  JSON_stringify : JsValue -> string;
  secrets_send : option string -> string -> Ext (option string);
  pg_connect : pg.ClientConfig -> Ext unit;
  pg_query : pg.ClientConfig -> Sql -> Ext pg.QueryResult;
  pg_end : pg.ClientConfig -> Ext unit
}.

Inductive ExternalCall :=
| SecretsSend (region : option string) (SecretId : string)
| PgConnect (client : pg.ClientConfig)
| PgQuery (client : pg.ClientConfig) (text : Sql)
| PgEnd (client : pg.ClientConfig).

Inductive Stream := Stdout | Stderr.

(** What a script is seen to do: a line on the console, or a call. *)
Inductive Event :=
| Printed (s : Stream) (args : list JsValue)
| Called (c : ExternalCall).

Definition call {A} (c : ExternalCall) (f : Ext A) : Js Event A :=
  fun w => mkRun (fst (f w)) [Called c] (snd (f w)).

Module console.
Definition log (args : list JsValue) : Js Event unit := emit (Printed Stdout args).
Definition error (args : list JsValue) : Js Event unit := emit (Printed Stderr args).
End console.

(** [JSON.parse(text)]: the value, or a SyntaxError. *)
Definition json_parse (P : Platform) (text : string) : Js Event JsValue :=
  match JSON_parse P text with
  | inl v => mret v
  | inr msg => e ← construct_error "SyntaxError" msg; throw (JsError e)
  end.

(** [s] where the type has been narrowed from [string | undefined]. *)
Definition narrowed (o : option string) : string :=
  match o with
  | Some s => s
  | None => ""
  end.

(** [rows[0]] *)
Definition first_row (res : pg.QueryResult) : JsValue :=
  match pg.rows res with
  | row :: _ => row
  | [] => JsUndefined
  end.

(** ** The reset script (unnamed/part_001, first file) *)

Module ResetDatabase.

(** [secretsClient], made when the module is loaded. *)
Definition region (P : Platform) : option string := env P !! "AWS_REGION".

Definition getDbCredentials (P : Platform) : Js Event JsValue :=
  let secretArn := env P !! "DB_SECRET_ARN" in
  if negb (truthy secretArn) then
    e ← new_Error "Missing DB_SECRET_ARN environment variable.";
    throw (JsError e)
  else
    SecretString ← call (SecretsSend (region P) (narrowed secretArn))
                        (secrets_send P (region P) (narrowed secretArn));
    if negb (truthy SecretString) then
      e ← new_Error "SecretString is empty.";
      throw (JsError e)
    else json_parse P (narrowed SecretString).

Definition query (P : Platform) (client : pg.ClientConfig) (text : Sql)
  : Js Event pg.QueryResult :=
  call (PgQuery client text) (pg_query P client text).

Definition dropAllTablesAndViews (P : Platform) (client : pg.ClientConfig)
  : Js Event unit :=
  console.log [JsString "⚠️ Dropping all views..."] ;;
  query P client DropMetadataView ;;
  console.log [JsString "⚠️ Dropping all tables..."] ;;
  query P client DropPublicTables ;;
  console.log [JsString "✅ All tables and views dropped."].

Definition createSchema (P : Platform) (client : pg.ClientConfig) : Js Event unit :=
  console.log [JsString "🚀 Creating database schema..."] ;;
  query P client CreateTables ;;
  console.log [JsString "✅ Database schema created."].

Definition createMetadataView (P : Platform) (client : pg.ClientConfig)
  : Js Event unit :=
  console.log [JsString "🛠 Creating metadata view and triggers..."] ;;
  query P client CreateMetadataView ;;
  console.log [JsString "✅ Metadata view and triggers created."].

Definition insertInitialData (P : Platform) (client : pg.ClientConfig)
  : Js Event unit :=
  console.log [JsString "📝 Inserting initial category..."] ;;
  res ← query P client InsertInitialCategory;
  console.log [JsString "✅ Inserted category:"; first_row res].

Definition testInsertMetadata (P : Platform) (client : pg.ClientConfig)
  : Js Event unit :=
  console.log [JsString "📝 Testing INSERT via metadata_view..."] ;;
  res ← query P client InsertIntoMetadataView;
  console.log [JsString "✅ Inserted via metadata_view:"; first_row res].

Definition testSelectMetadata (P : Platform) (client : pg.ClientConfig)
  : Js Event unit :=
  console.log [JsString "🔍 Testing SELECT from metadata_view..."] ;;
  res ← query P client SelectMetadataView;
  console.log [JsString "✅ Retrieved metadata:"; JsArray (pg.rows res)].

Definition testUpdateMetadata (P : Platform) (client : pg.ClientConfig)
  : Js Event unit :=
  console.log [JsString "✏️ Testing UPDATE via metadata_view..."] ;;
  res ← query P client UpdateMetadataView;
  console.log [JsString "✅ Updated category via metadata_view:"; first_row res].

Definition testDeleteMetadata (P : Platform) (client : pg.ClientConfig)
  : Js Event unit :=
  console.log [JsString "🗑️ Testing DELETE via metadata_view..."] ;;
  res ← query P client DeleteFromMetadataView;
  console.log [JsString "✅ Deleted category via metadata_view:"; first_row res].

(** The object literal given to [new Client]: the properties are read in
    the order they are written. *)
Definition clientConfig (secret : JsValue) : Js Event pg.ClientConfig :=
  host ← get_member secret "host";
  dbname ← get_member secret "dbname";
  username ← get_member secret "username";
  password ← get_member secret "password";
  port ← get_member secret "port";
  mret (pg.mkConfig host dbname username password
                    (or_else port (JsNumber 5432)) false).

Definition resetDatabase (P : Platform) : Js Event unit :=
  console.log [JsString "🔄 Resetting database..."] ;;
  secret ← getDbCredentials P;
  client ← clientConfig secret;
  try_catch_finally
    (call (PgConnect client) (pg_connect P client) ;;
     console.log [JsString "✅ Connected to database!"] ;;
     dropAllTablesAndViews P client ;;
     createSchema P client ;;
     createMetadataView P client ;;
     console.log [JsString "🚀 Running tests..."] ;;
     testInsertMetadata P client ;;
     testSelectMetadata P client ;;
     testUpdateMetadata P client ;;
     testDeleteMetadata P client ;;
     console.log [JsString "✅ All tests completed successfully!"] ;;
     console.log [JsString "🎉 Database successfully reset!"])
    (fun error =>
       console.error [JsString "❌ Error resetting database:"; error])
    (call (PgEnd client) (pg_end P client) ;;
     console.log [JsString "🔌 Database connection closed."]).

End ResetDatabase.

(** ** The Lambda function (unnamed/part_001, second file) *)

Module Lambda.

Record Response := mkResponse {
  statusCode : Z;
  body : string
}.

Definition region (P : Platform) : option string := env P !! "AWS_REGION".

Definition handler (P : Platform) : Js Event Response :=
  console.log [JsString "Lambda function started..."] ;;
  let secretArn := env P !! "DB_SECRET_ARN" in
  let dbHost := env P !! "DB_HOST" in
  console.log [JsString "Environment Variables:";
               JsObject [("DB_SECRET_ARN", of_optional secretArn);
                         ("DB_HOST", of_optional dbHost)]] ;;
  if negb (truthy secretArn) || negb (truthy dbHost) then
    console.error [JsString "❌ Missing environment variables!"] ;;
    mret (mkResponse 500
            (JSON_stringify P
               (JsObject [("error",
                           JsString "Missing environment variables DB_SECRET_ARN or DB_HOST")])))
  else
    try_catch
      (console.log [JsString "🔍 Fetching database credentials from AWS Secrets Manager..."] ;;
       SecretString ← call (SecretsSend (region P) (narrowed secretArn))
                           (secrets_send P (region P) (narrowed secretArn));
       console.log [JsString "SecretString"; of_optional SecretString] ;;
       (if negb (truthy SecretString) then
          e ← new_Error "SecretString is empty";
          throw (JsError e)
        else mret tt) ;;
       console.log [JsString "✅ Successfully retrieved secret from AWS Secrets Manager."] ;;
       secret ← json_parse P (narrowed SecretString);
       console.log [JsString "🔍 Parsed secret data:"; secret] ;;
       console.log [JsString "🔧 Creating PostgreSQL client..."] ;;
       dbname ← get_member secret "dbname";
       username ← get_member secret "username";
       password ← get_member secret "password";
       port ← get_member secret "port";
       let client :=
         pg.mkConfig (JsString (narrowed dbHost))
                     (or_else dbname (JsString "devdb"))
                     username password
                     (or_else port (JsNumber 5432)) false in
       console.log [JsString "🔌 Connecting to the database..."] ;;
       call (PgConnect client) (pg_connect P client) ;;
       console.log [JsString "✅ Connected to PostgreSQL database!"] ;;
       console.log [JsString "📝 Running test query..."] ;;
       res ← call (PgQuery client SelectNow) (pg_query P client SelectNow);
       console.log [JsString "✅ Query successful:"; first_row res] ;;
       console.log [JsString "🔌 Closing database connection..."] ;;
       call (PgEnd client) (pg_end P client) ;;
       console.log [JsString "✅ Database connection closed."] ;;
       console.log [JsString "🎉 Lambda execution completed successfully!"] ;;
       time ← get_member (first_row res) "current_time";
       mret (mkResponse 200
               (JSON_stringify P
                  (JsObject [("message", JsString "Connected!"); ("time", time)]))))
      (fun error =>
         console.error [JsString "❌ Error occurred:"; error] ;;
         message ← get_member error "message";
         mret (mkResponse 500 (JSON_stringify P (JsObject [("error", message)])))).

End Lambda.

(** ** What is observed of one run of a script *)

Definition calls_of (t : list Event) : list ExternalCall :=
  flat_map (fun ev => match ev with Called c => [c] | Printed _ _ => [] end) t.

Definition queries_of (t : list Event) : list Sql :=
  flat_map (fun ev => match ev with Called (PgQuery _ text) => [text] | _ => [] end) t.

Definition printed_of (t : list Event) : list (Stream * list JsValue) :=
  flat_map (fun ev => match ev with Printed s args => [(s, args)] | Called _ => [] end) t.

(** The number of times the connection of [client] is closed. *)
Definition ends_of (t : list Event) : nat :=
  length (List.filter (fun c => match c with PgEnd _ => true | _ => false end)
                      (calls_of t)).

(** The queries of [resetDatabase], in the order it sends them. *)
Definition reset_queries : list Sql :=
  [DropMetadataView; DropPublicTables; CreateTables; CreateMetadataView;
   InsertIntoMetadataView; SelectMetadataView; UpdateMetadataView;
   DeleteFromMetadataView].

(** The calls of the platform throw no [undefined] and no [null]: what
    they throw can be asked for its [message]. *)
Definition throws_no_nullish (P : Platform) : Prop :=
  (forall r id w v, fst (secrets_send P r id w) = Throw v -> is_nullish v = false) /\
  (forall c w v, fst (pg_connect P c w) = Throw v -> is_nullish v = false) /\
  (forall c q w v, fst (pg_query P c q w) = Throw v -> is_nullish v = false) /\
  (forall c w v, fst (pg_end P c w) = Throw v -> is_nullish v = false).

(** ** Platforms to run the scripts on *)

Module Platforms.

Definition environment : gmap string string :=
  {[ "AWS_REGION" := "us-east-1";
     "DB_SECRET_ARN" := "arn:aws:secretsmanager:us-east-1:582347504313:secret:db";
     "DB_HOST" := "cluster.example.us-east-1.rds.amazonaws.com" ]}.

(** The secret [{"username":"postgres","password":"hunter2"}]. *)
Definition secret_text : string :=
  "{" ++ SpecModel.quoted "username" ++ ":" ++ SpecModel.quoted "postgres" ++ ","
      ++ SpecModel.quoted "password" ++ ":" ++ SpecModel.quoted "hunter2" ++ "}".

(** A stand-in for [JSON.parse], on texts without escapes and fractions. *)
Definition parse (text : string) : JsValue + string :=
  match SpecModel.parse_value (S (String.length text)) (SpecModel.skip_ws text) with
  | Some (v, rest) =>
      if String.eqb (SpecModel.skip_ws rest) "" then inl v
      else inr "Unexpected non-whitespace character after JSON"
  | None => inr "Unexpected end of JSON input"
  end.

(** A call that answers the same in every world and leaves it as it was. *)
Definition answer {A} (c : Completion A) : Ext A := fun w => (c, w).

Definition now_row : pg.QueryResult :=
  pg.mkQueryResult [JsObject [("current_time", JsString "2025-01-01T00:00:00.000Z")]].

Definition platform (e : gmap string string) (secret : Completion (option string))
    (connect : Completion unit) (query : Completion pg.QueryResult)
    (close : Completion unit) : Platform :=
  mkPlatform e parse SpecModel.stringify
             (fun _ _ => answer secret) (fun _ => answer connect)
             (fun _ _ => answer query) (fun _ => answer close).

Definition healthy : Platform :=
  platform environment (Normal (Some secret_text)) (Normal tt) (Normal now_row)
           (Normal tt).

Definition read_timeout : ErrorObj := mkError 99 "Error" "Query read timeout".

(** The database accepts the connection and every query fails. *)
Definition failing_queries : Platform :=
  platform environment (Normal (Some secret_text)) (Normal tt)
           (Throw (JsError read_timeout)) (Normal tt).

Definition access_denied : ErrorObj :=
  mkError 98 "AccessDeniedException" "not authorized to perform GetSecretValue".

Definition denied : Platform :=
  platform environment (Throw (JsError access_denied)) (Normal tt) (Normal now_row)
           (Normal tt).

(** No variable is set. *)
Definition unconfigured : Platform :=
  platform ∅ (Normal (Some secret_text)) (Normal tt) (Normal now_row) (Normal tt).

(** An HTTP handler whose business logic throws a string. *)
Definition broken (this : APIGatewayBaseHandler.This SpecModel.ZodSchema)
  : Js LogEntry APIGatewayProxyResult :=
  throw (JsString "boom").

End Platforms.

(** ** Reasoning about runs *)

(** [wp m Q w]: the run of [m] from [w] completes, writes and ends as [Q]
    says. *)
Definition wp {O A} (m : Js O A) (Q : Completion A -> list O -> World -> Prop)
    (w : World) : Prop :=
  Q (outcome (m w)) (emitted (m w)) (final (m w)).

(** * Properties *)

(** ** The three paths of [execute] *)

Section Execute.
Context {TEvent TResult : Type}.
Variable this : BaseHandler TEvent TResult.
Variable w : World.

Lemma execute_Normal result :
  outcome (handleRequest this w) = Normal result ->
  execute this w =
    mkRun (Normal result)
          [ByExecute start_log; InHandleRequest (emitted (handleRequest this w));
           ByExecute success_log]
          (final (handleRequest this w)).
Proof.
  intros Hreq.
  unfold execute, mbind, Js_bind, bind, try_catch, call_handleRequest, own,
    logger.info, emit, mret, Js_ret, ret; simpl.
  rewrite Hreq; simpl. reflexivity.
Qed.

Lemma execute_Throw_Error e :
  outcome (handleRequest this w) = Throw (JsError e) ->
  execute this w =
    let r := handleRequest this w in
    let r' := handleError this e (final r) in
    mkRun (outcome r')
          [ByExecute start_log; InHandleRequest (emitted r);
           InHandleError e (emitted r')]
          (final r').
Proof.
  intros Hreq.
  unfold execute, mbind, Js_bind, bind, try_catch, call_handleRequest,
    call_handleError, own, logger.info, emit; simpl.
  rewrite Hreq; simpl. reflexivity.
Qed.

Lemma execute_Throw_other thrown :
  outcome (handleRequest this w) = Throw thrown ->
  instanceof_Error thrown = None ->
  execute this w =
    let r := handleRequest this w in
    let r' := handleError this (genericError (final r)) (after_new_Error (final r)) in
    mkRun (outcome r')
          [ByExecute start_log; InHandleRequest (emitted r);
           ByExecute (unknown_error_log thrown);
           InHandleError (genericError (final r)) (emitted r')]
          (final r').
Proof.
  intros Hreq Hkind.
  unfold execute, mbind, Js_bind, bind, try_catch, call_handleRequest,
    call_handleError, own, logger.info, logger.error, emit, new_Error,
    construct_error; simpl.
  rewrite Hreq; simpl. rewrite Hkind; simpl. reflexivity.
Qed.

End Execute.

(** ** Success *)

(** C1: when [handleRequest] resolves with a value, [execute] resolves with
    that value, calls [handleRequest] once and [handleError] not at all,
    and writes the start log and then exactly one success log, around
    whatever [handleRequest] logged. *)
Theorem execute_success {TEvent TResult}
    (this : BaseHandler TEvent TResult) (w : World) (result : TResult) :
  outcome (handleRequest this w) = Normal result ->
  let r := execute this w in
  outcome r = Normal result /\
  handleError_calls (emitted r) = [] /\
  handleRequest_calls (emitted r) = 1%nat /\
  lifecycle_logs (emitted r) = [start_log; success_log] /\
  count is_success_log (lifecycle_logs (emitted r)) = 1%nat /\
  count is_error_log (lifecycle_logs (emitted r)) = 0%nat /\
  logger_output (emitted r) =
    start_log :: emitted (handleRequest this w) ++ [success_log] /\
  final r = final (handleRequest this w).
Proof.
  intros Hreq r. subst r. rewrite (execute_Normal this w result Hreq).
  cbn. repeat split; reflexivity.
Qed.

Lemma execute_success_witness :
  outcome (handleRequest
             (CognitoBaseHandler.CognitoBaseHandler Samples.signup Samples.accept)
             Samples.w0) = Normal Samples.signup /\
  outcome (execute
             (CognitoBaseHandler.CognitoBaseHandler Samples.signup Samples.accept)
             Samples.w0) = Normal Samples.signup.
Proof.
  split; [reflexivity |].
  apply (execute_success
           (CognitoBaseHandler.CognitoBaseHandler Samples.signup Samples.accept)
           Samples.w0 Samples.signup).
  reflexivity.
Defined.

(** ** Failure with an error *)

(** With a subclass whose [handleError] answers without logging, a failed
    invocation ends with no error log at all. *)
Lemma exactly_one_error_log_counterexample :
  ~ exactly_one_error_log Samples.quiet Samples.w0.
Proof.
  intros Hclaim.
  specialize (Hclaim Samples.invalid_token eq_refl).
  vm_compute in Hclaim. discriminate Hclaim.
Qed.

(** C2, amended: when [handleRequest] fails with an error [e], [execute]
    calls [handleError] exactly once, with [e] itself, in the world
    [handleRequest] left; it completes the way that call completes, with
    the same value or the same thrown value; and it writes no error log of
    its own, so that the error logs of the invocation are those of
    [handleRequest] followed by those of [handleError]: exactly one in the
    lifecycle when [handleError] writes exactly one. *)
Theorem execute_error_forwarded {TEvent TResult}
    (this : BaseHandler TEvent TResult) (w : World) (e : ErrorObj) :
  outcome (handleRequest this w) = Throw (JsError e) ->
  let r0 := handleRequest this w in
  let r' := handleError this e (final r0) in
  let r := execute this w in
  handleError_calls (emitted r) = [e] /\
  outcome r = outcome r' /\
  final r = final r' /\
  own_logs (emitted r) = [start_log] /\
  handleError_logs (emitted r) = emitted r' /\
  count is_error_log (lifecycle_logs (emitted r)) = count is_error_log (emitted r') /\
  List.filter is_error_log (logger_output (emitted r)) =
    (List.filter is_error_log (emitted r0) ++ List.filter is_error_log (emitted r'))%list.
Proof.
  intros Hreq r0 r' r. subst r r' r0.
  rewrite (execute_Throw_Error this w e Hreq). cbn.
  rewrite !app_nil_r.
  repeat split; try reflexivity.
  apply List.filter_app.
Qed.

Lemma execute_error_forwarded_witness :
  outcome (handleRequest Samples.quiet Samples.w0) = Throw (JsError Samples.invalid_token) /\
  handleError_calls (emitted (execute Samples.quiet Samples.w0)) = [Samples.invalid_token] /\
  outcome (execute Samples.quiet Samples.w0) = Normal JsNull.
Proof.
  split; [reflexivity |].
  pose proof (execute_error_forwarded Samples.quiet Samples.w0 Samples.invalid_token eq_refl)
    as (Hcalls & Hout & _).
  split; [exact Hcalls | exact Hout].
Defined.

(** ** Failure with a value that is not an error *)

(** C3: when [handleRequest] throws a value that is not an [Error],
    [execute] writes one error log whose metadata holds the thrown value,
    makes a new [Error] with the message "Unknown error occurred", and
    calls [handleError] once, with that error; it completes the way that
    call completes.  The thrown value reaches nothing but the log: with
    another thrown value (and the same world left behind) [handleError]
    receives the same error, and the invocation completes the same way
    and leaves the same world and the same lines of [handleError]. *)
Theorem execute_unknown_error {TEvent TResult}
    (this : BaseHandler TEvent TResult) (w : World) (thrown : JsValue) :
  outcome (handleRequest this w) = Throw thrown ->
  instanceof_Error thrown = None ->
  let r0 := handleRequest this w in
  let g := genericError (final r0) in
  let r' := handleError this g (after_new_Error (final r0)) in
  let r := execute this w in
  own_logs (emitted r) = [start_log; unknown_error_log thrown] /\
  meta (unknown_error_log thrown) =
    Some (JsObject [("data", JsObject [("error", thrown)])]) /\
  err_name g = "Error" /\
  err_message g = "Unknown error occurred" /\
  err_ref g = next_ref (final r0) /\
  handleError_calls (emitted r) = [g] /\
  outcome r = outcome r' /\
  final r = final r' /\
  handleError_logs (emitted r) = emitted r' /\
  forall (that : BaseHandler TEvent TResult) (thrown' : JsValue),
    handleError that = handleError this ->
    outcome (handleRequest that w) = Throw thrown' ->
    instanceof_Error thrown' = None ->
    final (handleRequest that w) = final r0 ->
    let s := execute that w in
    handleError_calls (emitted s) = handleError_calls (emitted r) /\
    outcome s = outcome r /\
    final s = final r /\
    handleError_logs (emitted s) = handleError_logs (emitted r).
Proof.
  intros Hreq Hkind r0 g r' r. subst r r' g r0.
  rewrite (execute_Throw_other this w thrown Hreq Hkind). cbn.
  rewrite !app_nil_r.
  do 9 (split; [reflexivity |]).
  intros that thrown' Hsame Hreq' Hkind' Hfinal.
  rewrite (execute_Throw_other that w thrown' Hreq' Hkind'). cbn.
  rewrite !app_nil_r, Hsame, Hfinal.
  repeat split; reflexivity.
Qed.

Lemma execute_unknown_error_witness :
  let this := CognitoBaseHandler.CognitoBaseHandler Samples.signup Samples.boom in
  let that := CognitoBaseHandler.CognitoBaseHandler Samples.signup Samples.boom_code in
  outcome (handleRequest this Samples.w0) = Throw (JsString "boom") /\
  instanceof_Error (JsString "boom") = None /\
  own_logs (emitted (execute this Samples.w0)) =
    [start_log; unknown_error_log (JsString "boom")] /\
  handleError_calls (emitted (execute this Samples.w0)) =
    [mkError 0 "Error" "Unknown error occurred"] /\
  outcome (execute that Samples.w0) = outcome (execute this Samples.w0).
Proof.
  intros this that.
  split; [reflexivity |]. split; [reflexivity |].
  pose proof (execute_unknown_error this Samples.w0 (JsString "boom") eq_refl eq_refl)
    as (Hown & _ & _ & _ & _ & Hcalls & _ & _ & _ & Hother).
  split; [exact Hown |]. split; [exact Hcalls |].
  exact (proj1 (proj2 (Hother that (JsNumber 42) eq_refl eq_refl eq_refl eq_refl))).
Defined.

(** ** The identity-event specialization *)

Lemma cognito_handleError_run (event : JsValue) (error : ErrorObj) (w : World) :
  CognitoBaseHandler.handleError event error w =
    mkRun (Throw (JsError error)) [cognito_error_log error event] w.
Proof. reflexivity. Qed.

(** C5: in the Cognito handler, [handleError] writes one error log, whose
    metadata holds the error and the event of the instance, and throws the
    error it was given; so when [handleRequest] fails with an error,
    [execute] fails with that very error object (same reference, no new
    object is allocated), never with a value, after exactly one error log. *)
Theorem cognito_error_reraised (event : JsValue)
    (request : JsValue -> Js LogEntry JsValue) (w : World) (e : ErrorObj) :
  outcome (request event w) = Throw (JsError e) ->
  let r0 := request event w in
  let r := execute (CognitoBaseHandler.CognitoBaseHandler event request) w in
  (forall error w', CognitoBaseHandler.handleError event error w' =
                    mkRun (Throw (JsError error)) [cognito_error_log error event] w') /\
  meta (cognito_error_log e event) =
    Some (JsObject [("error", JsError e); ("event", event)]) /\
  outcome r = Throw (JsError e) /\
  handleError_calls (emitted r) = [e] /\
  emitted r = [ByExecute start_log; InHandleRequest (emitted r0);
               InHandleError e [cognito_error_log e event]] /\
  lifecycle_logs (emitted r) = [start_log; cognito_error_log e event] /\
  count is_error_log (lifecycle_logs (emitted r)) = 1%nat /\
  final r = final r0.
Proof.
  intros Hreq r0 r. subst r r0.
  rewrite (execute_Throw_Error
             (CognitoBaseHandler.CognitoBaseHandler event request) w e Hreq).
  cbn. repeat split; reflexivity.
Qed.

Lemma cognito_error_reraised_witness :
  outcome (Samples.reject Samples.signup Samples.w0) = Throw (JsError Samples.invalid_token) /\
  outcome (execute (CognitoBaseHandler.CognitoBaseHandler Samples.signup Samples.reject)
                   Samples.w0) = Throw (JsError Samples.invalid_token).
Proof.
  split; [reflexivity |].
  pose proof (cognito_error_reraised Samples.signup Samples.reject Samples.w0
                Samples.invalid_token eq_refl) as (_ & _ & Hout & _).
  exact Hout.
Defined.

(** ** The log lines of one invocation *)

(** In the Cognito handler a thrown string is logged twice at the error
    level: by [execute], and by [handleError] for the generic error. *)
Lemma one_start_one_terminal_log_counterexample :
  ~ one_start_one_terminal_log
      (CognitoBaseHandler.CognitoBaseHandler Samples.signup Samples.boom) Samples.w0.
Proof.
  intros [_ Hterminal]. vm_compute in Hterminal. discriminate Hterminal.
Qed.

Lemma lifecycle_logs_of_execute {TEvent TResult}
    (this : BaseHandler TEvent TResult) (w : World) :
  let r := execute this w in
  count is_start_log (own_logs (emitted r)) = 1%nat /\
  (exists rest, logger_output (emitted r) = start_log :: rest) /\
  match outcome (handleRequest this w) with
  | Normal _ =>
      count is_success_log (own_logs (emitted r)) = 1%nat /\
      count is_error_log (lifecycle_logs (emitted r)) = 0%nat
  | Throw v =>
      count is_success_log (own_logs (emitted r)) = 0%nat /\
      count is_error_log (lifecycle_logs (emitted r)) =
        ((match instanceof_Error v with Some _ => 0 | None => 1 end) +
         count is_error_log (handleError_logs (emitted r)))%nat
  end.
Proof.
  intros r. subst r.
  destruct (outcome (handleRequest this w)) as [result | v] eqn:Hreq.
  - rewrite (execute_Normal this w result Hreq). cbn.
    repeat split; try reflexivity. eexists; reflexivity.
  - destruct (instanceof_Error v) as [e |] eqn:Hkind.
    + destruct v; try discriminate Hkind. injection Hkind as ->.
      rewrite (execute_Throw_Error this w e Hreq). cbn.
      rewrite !app_nil_r.
      repeat split; try reflexivity. eexists; reflexivity.
    + rewrite (execute_Throw_other this w v Hreq Hkind). cbn.
      rewrite !app_nil_r.
      repeat split; try reflexivity. eexists; reflexivity.
Qed.

Lemma lifecycle_logs_of_cognito (event : JsValue)
    (request : JsValue -> Js LogEntry JsValue) (w : World) :
  let r := execute (CognitoBaseHandler.CognitoBaseHandler event request) w in
  let ls := lifecycle_logs (emitted r) in
  count is_start_log ls = 1%nat /\
  match outcome (request event w) with
  | Normal _ => count is_success_log ls = 1%nat /\ count is_error_log ls = 0%nat
  | Throw v =>
      count is_success_log ls = 0%nat /\
      count is_error_log ls =
        match instanceof_Error v with Some _ => 1%nat | None => 2%nat end
  end.
Proof.
  intros r ls. subst ls r.
  set (this := CognitoBaseHandler.CognitoBaseHandler event request).
  destruct (outcome (request event w)) as [result | v] eqn:Hreq.
  - rewrite (execute_Normal this w result Hreq). cbn. repeat split; reflexivity.
  - destruct (instanceof_Error v) as [e |] eqn:Hkind.
    + destruct v; try discriminate Hkind. injection Hkind as ->.
      rewrite (execute_Throw_Error this w e Hreq). cbn. repeat split; reflexivity.
    + rewrite (execute_Throw_other this w v Hreq Hkind). cbn. repeat split; reflexivity.
Qed.

(** C4, amended: in every invocation [execute] writes exactly one start
    log, and it is the first line.  When [handleRequest] succeeds it writes
    exactly one success log and the lifecycle has no error log.  When
    [handleRequest] fails it writes no success log, and the error logs of
    the lifecycle are its own (one, only for a thrown value that is not an
    error) and those of [handleError].  In the Cognito handler that makes
    one error log for a thrown error and two for any other thrown value. *)
Theorem lifecycle_log_counts :
  (forall (TEvent TResult : Type) (this : BaseHandler TEvent TResult) (w : World),
     let r := execute this w in
     count is_start_log (own_logs (emitted r)) = 1%nat /\
     (exists rest, logger_output (emitted r) = start_log :: rest) /\
     match outcome (handleRequest this w) with
     | Normal _ =>
         count is_success_log (own_logs (emitted r)) = 1%nat /\
         count is_error_log (lifecycle_logs (emitted r)) = 0%nat
     | Throw v =>
         count is_success_log (own_logs (emitted r)) = 0%nat /\
         count is_error_log (lifecycle_logs (emitted r)) =
           ((match instanceof_Error v with Some _ => 0 | None => 1 end) +
            count is_error_log (handleError_logs (emitted r)))%nat
     end) /\
  (forall (event : JsValue) (request : JsValue -> Js LogEntry JsValue) (w : World),
     let r := execute (CognitoBaseHandler.CognitoBaseHandler event request) w in
     let ls := lifecycle_logs (emitted r) in
     count is_start_log ls = 1%nat /\
     match outcome (request event w) with
     | Normal _ => count is_success_log ls = 1%nat /\ count is_error_log ls = 0%nat
     | Throw v =>
         count is_success_log ls = 0%nat /\
         count is_error_log ls =
        match instanceof_Error v with Some _ => 1%nat | None => 2%nat end
     end).
Proof.
  split.
  - intros TEvent TResult this w. apply lifecycle_logs_of_execute.
  - intros event request w. apply lifecycle_logs_of_cognito.
Qed.

(** ** The HTTP specialization: [parseSchema] *)

Section ParseSchema.
Context {ZodSchema : Type}.
Variable M : utils.Mediators ZodSchema.
Variable this : APIGatewayBaseHandler.This ZodSchema.
Variable w : World.

(** With a body that is [null] or empty the validator runs at once, on the
    view with the empty mapping. *)
Lemma parseSchema_falsy_body :
  truthy (body (APIGatewayBaseHandler.event this)) = false ->
  APIGatewayBaseHandler.parseSchema M this w =
    utils.zodParser M (APIGatewayBaseHandler.schema this)
                    (spread_with_body (APIGatewayBaseHandler.event this) []) w.
Proof.
  intros Hfalsy.
  unfold APIGatewayBaseHandler.parseSchema, mbind, Js_bind, bind.
  rewrite Hfalsy. cbn.
  destruct (utils.zodParser M _ _ w); reflexivity.
Qed.

(** With any other body the parser runs first; the validator runs after
    it, in the world it left, if it returned a mapping. *)
Lemma parseSchema_truthy_body :
  truthy (body (APIGatewayBaseHandler.event this)) = true ->
  APIGatewayBaseHandler.parseSchema M this w =
    let p := utils.parseJSONBody M (body (APIGatewayBaseHandler.event this))
                                   (headers (APIGatewayBaseHandler.event this)) w in
    match outcome p with
    | Normal mapping =>
        let v := utils.zodParser M (APIGatewayBaseHandler.schema this)
                   (spread_with_body (APIGatewayBaseHandler.event this) mapping)
                   (final p) in
        mkRun (outcome v) (emitted p ++ emitted v)%list (final v)
    | Throw x => mkRun (Throw x) (emitted p) (final p)
    end.
Proof.
  intros Htruthy.
  unfold APIGatewayBaseHandler.parseSchema, APIGatewayBaseHandler.parseJSONBody,
    mbind, Js_bind, bind.
  rewrite Htruthy. reflexivity.
Qed.

End ParseSchema.

Lemma truthy_true_iff (b : option string) :
  truthy b = true <-> exists text, b = Some text /\ text <> "".
Proof.
  destruct b as [text |]; cbn.
  - rewrite negb_true_iff, String.eqb_neq. split.
    + intros Hne. exists text. split; [reflexivity | exact Hne].
    + intros (text' & [= <-] & Hne). exact Hne.
  - split; [discriminate | intros (text & Hsome & _); discriminate Hsome].
Qed.

Lemma SpecModel_parseJSONBody_throws (b : option string) (h : gmap string string) :
  throws_only "ParseError" (SpecModel.parseJSONBody b h).
Proof.
  intros w v. unfold SpecModel.parseJSONBody.
  destruct b as [text |]; [| discriminate].
  destruct (SpecModel.is_json_content_type h); [| discriminate].
  destruct (SpecModel.parse_json_object text); [discriminate |].
  cbn. intros [= <-]. eexists. split; reflexivity.
Qed.

Lemma SpecModel_zodParser_throws (s : SpecModel.ZodSchema) (ev : APIGatewayParsedEvent) :
  throws_only "ValidationError" (SpecModel.zodParser s ev).
Proof.
  intros w v. unfold SpecModel.zodParser.
  destruct (SpecModel.validate s (body ev)); [| discriminate].
  cbn. intros [= <-]. eexists. split; reflexivity.
Qed.

(** On a malformed body of a JSON request [parseSchema] fails with the
    ParseError of the parser. *)
Lemma validated_or_ValidationError_counterexample :
  ~ validated_or_ValidationError
      (outcome (APIGatewayBaseHandler.parseSchema
                  (SpecModel.mediators Samples.no_roles)
                  Samples.this_malformed Samples.w0)).
Proof.
  vm_compute. intros (e & Hthrown & Hname).
  injection Hthrown as <-. discriminate Hname.
Qed.

(** C7, amended: [parseSchema] calls [parseJSONBody] when the body is a
    non-empty string and takes the empty mapping when the body is [null]
    or the empty string.  If the parser fails, its ParseError is what
    [parseSchema] fails with, and the validator is not called.  Otherwise
    the derived view is the event with the mapping for its body and every
    other property as it was, the validator is called with the schema of
    the instance and that view, and [parseSchema] returns the validated
    value or fails with the ValidationError of the validator.  The event of
    the instance is a value of its own: the view is built beside it. *)
Theorem parseSchema_validates_derived_view {ZodSchema : Type}
    (M : utils.Mediators ZodSchema) (this : APIGatewayBaseHandler.This ZodSchema)
    (w : World) :
  (forall b h, throws_only "ParseError" (utils.parseJSONBody M b h)) ->
  (forall s e, throws_only "ValidationError" (utils.zodParser M s e)) ->
  let ev := APIGatewayBaseHandler.event this in
  let r := APIGatewayBaseHandler.parseSchema M this w in
  let parsed :=
    if truthy (body ev)
    then utils.parseJSONBody M (body ev) (headers ev) w
    else mkRun (Normal []) [] w in
  (truthy (body ev) = true <-> exists text, body ev = Some text /\ text <> "") /\
  match outcome parsed with
  | Normal mapping =>
      let customEvent : APIGatewayParsedEvent := spread_with_body ev mapping in
      let v := utils.zodParser M (APIGatewayBaseHandler.schema this) customEvent
                               (final parsed) in
      body customEvent = mapping /\
      spread_with_body customEvent (body ev) = ev /\
      outcome r = outcome v /\
      emitted r = (emitted parsed ++ emitted v)%list /\
      final r = final v /\
      validated_or_ValidationError (outcome r)
  | Throw x =>
      truthy (body ev) = true /\
      r = mkRun (Throw x) (emitted parsed) (final parsed) /\
      exists e, x = JsError e /\ err_name e = "ParseError"
  end.
Proof.
  intros Hparser Hvalid ev r parsed. subst r parsed ev.
  split; [apply truthy_true_iff |].
  destruct (truthy (body (APIGatewayBaseHandler.event this))) eqn:Htruthy.
  - rewrite (parseSchema_truthy_body M this w Htruthy). cbv beta iota zeta.
    destruct (outcome (utils.parseJSONBody M _ _ w)) as [mapping | x] eqn:Hparsed; cbn.
    + split; [reflexivity |].
      split; [destruct (APIGatewayBaseHandler.event this); reflexivity |].
      do 3 (split; [reflexivity |]).
      destruct (outcome (utils.zodParser M _ _ _)) as [value | x] eqn:Hv; cbn.
      * exact I.
      * exact (Hvalid _ _ _ _ Hv).
    + split; [reflexivity |]. split; [reflexivity |].
      exact (Hparser _ _ _ _ Hparsed).
  - rewrite (parseSchema_falsy_body M this w Htruthy). cbn.
    split; [reflexivity |].
    split; [destruct (APIGatewayBaseHandler.event this); reflexivity |].
    do 3 (split; [reflexivity |]).
    destruct (outcome (utils.zodParser M _ _ _)) as [value | x] eqn:Hv; cbn.
    + exact I.
    + exact (Hvalid _ _ _ _ Hv).
Qed.

Lemma parseSchema_validates_derived_view_witness :
  (forall b h, throws_only "ParseError" (SpecModel.parseJSONBody b h)) /\
  (forall s e, throws_only "ValidationError" (SpecModel.zodParser s e)) /\
  outcome (APIGatewayBaseHandler.parseSchema (SpecModel.mediators Samples.no_roles)
             Samples.this_item Samples.w0) =
    Normal (JsObject [("a", JsNumber 1)]).
Proof.
  split; [exact SpecModel_parseJSONBody_throws |].
  split; [exact SpecModel_zodParser_throws |].
  pose proof (parseSchema_validates_derived_view
                (SpecModel.mediators Samples.no_roles) Samples.this_item Samples.w0
                SpecModel_parseJSONBody_throws SpecModel_zodParser_throws)
    as [_ Hview].
  vm_compute in Hview.
  destruct Hview as (_ & _ & Hout & _). exact Hout.
Defined.

(** The empty string is a body, and the parser of the model rejects it;
    [parseSchema] does not ask the parser. *)
Example parseSchema_empty_text :
  (exists e, outcome (SpecModel.parseJSONBody (Some "") Samples.json_headers Samples.w0) =
             Throw (JsError e)) /\
  outcome (APIGatewayBaseHandler.parseSchema (SpecModel.mediators Samples.no_roles)
             Samples.this_empty Samples.w0) = Normal (JsObject []).
Proof. split; [eexists |]; vm_compute; reflexivity. Qed.

(** C10: for an event whose body is the empty string, [parseSchema] runs
    the validator on the view with the empty mapping, exactly as for the
    same event with a [null] body, and does not call [parseJSONBody]: the
    run is the same whatever the parser is. *)
Theorem parseSchema_empty_body {ZodSchema : Type}
    (M : utils.Mediators ZodSchema) (this : APIGatewayBaseHandler.This ZodSchema)
    (w : World) :
  body (APIGatewayBaseHandler.event this) = Some "" ->
  let view : APIGatewayParsedEvent :=
    spread_with_body (APIGatewayBaseHandler.event this) [] in
  let absent :=
    APIGatewayBaseHandler.mkThis
      (spread_with_body (APIGatewayBaseHandler.event this) None)
      (APIGatewayBaseHandler.schema this) in
  APIGatewayBaseHandler.parseSchema M this w =
    utils.zodParser M (APIGatewayBaseHandler.schema this) view w /\
  body view = [] /\
  (forall parser,
     APIGatewayBaseHandler.parseSchema (with_parser M parser) this w =
     APIGatewayBaseHandler.parseSchema M this w) /\
  APIGatewayBaseHandler.parseSchema M absent w =
    APIGatewayBaseHandler.parseSchema M this w.
Proof.
  intros Hbody view absent.
  assert (Hfalsy : truthy (body (APIGatewayBaseHandler.event this)) = false)
    by (rewrite Hbody; reflexivity).
  split; [exact (parseSchema_falsy_body M this w Hfalsy) |].
  split; [reflexivity |].
  split.
  - intros parser.
    rewrite (parseSchema_falsy_body (with_parser M parser) this w Hfalsy).
    rewrite (parseSchema_falsy_body M this w Hfalsy). reflexivity.
  - rewrite (parseSchema_falsy_body M absent w eq_refl).
    rewrite (parseSchema_falsy_body M this w Hfalsy). reflexivity.
Qed.

Lemma parseSchema_empty_body_witness :
  body (APIGatewayBaseHandler.event Samples.this_empty) = Some "" /\
  APIGatewayBaseHandler.parseSchema
    (with_parser (SpecModel.mediators Samples.no_roles) Samples.failing_parser)
    Samples.this_empty Samples.w0 =
  APIGatewayBaseHandler.parseSchema (SpecModel.mediators Samples.no_roles)
    Samples.this_empty Samples.w0.
Proof.
  split; [reflexivity |].
  pose proof (parseSchema_empty_body (SpecModel.mediators Samples.no_roles)
                Samples.this_empty Samples.w0 eq_refl) as (_ & _ & Hparser & _).
  exact (Hparser Samples.failing_parser).
Defined.

(** ** The HTTP specialization: the mediators of the model *)

(** C8: with the Authorization mediator of the model, [checkAccess] with
    the empty list of roles fails with an AuthorizationError, for every
    event, every world and whatever roles the actor holds. *)
Theorem checkAccess_empty_roles
    (actorRoles : World -> APIGatewayProxyEvent -> list AuthRoles)
    (this : APIGatewayBaseHandler.This SpecModel.ZodSchema) (w : World) :
  exists e,
    outcome (APIGatewayBaseHandler.checkAccess (SpecModel.mediators actorRoles)
               this [] w) = Throw (JsError e) /\
    err_name e = "AuthorizationError".
Proof.
  eexists. split; reflexivity.
Qed.

(** With a role to ask for, the answer follows the roles of the actor. *)
Example checkAccess_admin :
  outcome (APIGatewayBaseHandler.checkAccess (SpecModel.mediators Samples.admin_only)
             Samples.this_item ["editor"; "admin"] Samples.w0) = Normal tt /\
  outcome (APIGatewayBaseHandler.checkAccess (SpecModel.mediators Samples.no_roles)
             Samples.this_item ["editor"; "admin"] Samples.w0) =
    Throw (JsError (mkError 0 "AuthorizationError" "Access denied")) /\
  outcome (APIGatewayBaseHandler.checkAccess (SpecModel.mediators Samples.admin_only)
             Samples.this_item [] Samples.w0) =
    Throw (JsError (mkError 0 "AuthorizationError" "Access denied")).
Proof. repeat split; reflexivity. Qed.

(** C9: with the Response Formatter of the model, [formatResponse] is a
    function of its input alone: whatever the instance, the world and the
    other mediators, it returns the same response for the same input, byte
    for byte in the body, writes nothing and leaves the world as it was. *)
Theorem formatResponse_deterministic
    (actorRoles1 actorRoles2 : World -> APIGatewayProxyEvent -> list AuthRoles)
    (this1 this2 : APIGatewayBaseHandler.This SpecModel.ZodSchema)
    (w1 w2 : World) (response : Input) :
  let r1 := APIGatewayBaseHandler.formatResponse (SpecModel.mediators actorRoles1)
              this1 response w1 in
  let r2 := APIGatewayBaseHandler.formatResponse (SpecModel.mediators actorRoles2)
              this2 response w2 in
  outcome r1 = outcome r2 /\
  outcome r1 = Normal (SpecModel.format response) /\
  resultBody (SpecModel.format response) = SpecModel.stringify (inputBody response) /\
  emitted r1 = [] /\
  final r1 = w1.
Proof.
  repeat split; reflexivity.
Qed.

Example formatResponse_bytes :
  outcome (APIGatewayBaseHandler.formatResponse (SpecModel.mediators Samples.no_roles)
             Samples.this_item
             (mkInput 200 (JsObject [("data", JsObject [("a", JsNumber 1)])]) ∅)
             Samples.w0) =
    Normal (mkResult 200 ∅
              ("{" ++ SpecModel.quoted "data" ++ ":{" ++ SpecModel.quoted "a" ++ ":1}}")).
Proof. vm_compute. reflexivity. Qed.

(** ** The HTTP specialization: errors *)

(** Whatever [handleRequest] does, [execute] returns a value as soon as
    [handleError] always does. *)
Lemma execute_returns_when_handleError_does {TEvent TResult}
    (this : BaseHandler TEvent TResult) (w : World) :
  (forall error w', exists result, outcome (handleError this error w') = Normal result) ->
  exists result, outcome (execute this w) = Normal result.
Proof.
  intros Htotal.
  destruct (outcome (handleRequest this w)) as [result | v] eqn:Hreq.
  - exists result. rewrite (execute_Normal this w result Hreq). reflexivity.
  - destruct (instanceof_Error v) as [e |] eqn:Hkind.
    + destruct v; try discriminate Hkind. injection Hkind as ->.
      rewrite (execute_Throw_Error this w e Hreq). cbn. apply Htotal.
    + rewrite (execute_Throw_other this w v Hreq Hkind). cbn. apply Htotal.
Qed.

Lemma SpecModel_handleError_total (error : ErrorObj) (event : APIGatewayProxyEvent)
    (w : World) :
  exists response, SpecModel.handleError error event w = mkRun (Normal response) [] w.
Proof.
  unfold SpecModel.handleError.
  destruct (SpecModel.client_error_status (err_name error)); eexists; reflexivity.
Qed.

(** C6: with the Error Classifier of the model, [handleError] of the HTTP
    handler returns a response for every error and does not throw, so
    [execute] returns a response whatever [handleRequest] does.  An error
    of a kind the classifier does not know gives the generic response, with
    status 500: the same response for every such error, whatever its
    message; a thrown value that is not an error gives it too. *)
Theorem http_errors_become_responses
    (actorRoles : World -> APIGatewayProxyEvent -> list AuthRoles)
    (this : APIGatewayBaseHandler.This SpecModel.ZodSchema) :
  let M := SpecModel.mediators actorRoles in
  (forall error w, exists response,
     APIGatewayBaseHandler.handleError M this error w =
       mkRun (Normal response) [] w) /\
  (forall request w, exists response,
     outcome (execute (APIGatewayBaseHandler.APIGatewayBaseHandler M this request) w) =
       Normal response) /\
  (forall error w,
     SpecModel.client_error_status (err_name error) = None ->
     outcome (APIGatewayBaseHandler.handleError M this error w) =
       Normal SpecModel.generic_server_error) /\
  statusCode SpecModel.generic_server_error = 500 /\
  (forall this' error error' w w',
     SpecModel.client_error_status (err_name error) = None ->
     SpecModel.client_error_status (err_name error') = None ->
     outcome (APIGatewayBaseHandler.handleError M this error w) =
     outcome (APIGatewayBaseHandler.handleError M this' error' w')) /\
  (forall request w thrown,
     outcome (request this w) = Throw thrown ->
     instanceof_Error thrown = None ->
     outcome (execute (APIGatewayBaseHandler.APIGatewayBaseHandler M this request) w) =
       Normal SpecModel.generic_server_error).
Proof.
  intros M. subst M.
  assert (Hgeneric : forall this0 error w,
             SpecModel.client_error_status (err_name error) = None ->
             outcome (APIGatewayBaseHandler.handleError
                        (SpecModel.mediators actorRoles) this0 error w) =
               Normal SpecModel.generic_server_error).
  { intros this0 error w Hkind.
    unfold APIGatewayBaseHandler.handleError; cbn.
    unfold SpecModel.handleError. rewrite Hkind. reflexivity. }
  split.
  { intros error w. apply SpecModel_handleError_total. }
  split.
  { intros request w. apply execute_returns_when_handleError_does.
    intros error w'. cbn.
    destruct (SpecModel_handleError_total error (APIGatewayBaseHandler.event this) w')
      as [response Hrun].
    exists response. unfold APIGatewayBaseHandler.handleError; cbn.
    rewrite Hrun. reflexivity. }
  split; [apply Hgeneric |].
  split; [reflexivity |].
  split.
  { intros this' error error' w w' Hkind Hkind'.
    rewrite (Hgeneric this error w Hkind), (Hgeneric this' error' w' Hkind').
    reflexivity. }
  intros request w thrown Hreq Hkind.
  rewrite (execute_Throw_other
             (APIGatewayBaseHandler.APIGatewayBaseHandler
                (SpecModel.mediators actorRoles) this request) w thrown Hreq Hkind).
  cbn. reflexivity.
Qed.

Lemma http_errors_become_responses_witness :
  SpecModel.client_error_status (err_name (mkError 7 "Error" "password=hunter2")) = None /\
  outcome (APIGatewayBaseHandler.handleError (SpecModel.mediators Samples.no_roles)
             Samples.this_item (mkError 7 "Error" "password=hunter2") Samples.w0) =
    Normal (mkResult 500 ∅ "Internal Server Error").
Proof.
  split; [reflexivity |].
  pose proof (http_errors_become_responses Samples.no_roles Samples.this_item)
    as (_ & _ & Hgeneric & _).
  exact (Hgeneric (mkError 7 "Error" "password=hunter2") Samples.w0 eq_refl).
Defined.

(** A request that is refused, one that is malformed and one that is
    served, from [execute] to the response. *)
Example create_item_responses :
  outcome (execute (APIGatewayBaseHandler.APIGatewayBaseHandler
                      (SpecModel.mediators Samples.no_roles) Samples.this_item
                      (Samples.create_item Samples.no_roles)) Samples.w0) =
    Normal (mkResult 403 ∅ "AuthorizationError: Access denied") /\
  outcome (execute (APIGatewayBaseHandler.APIGatewayBaseHandler
                      (SpecModel.mediators Samples.admin_only) Samples.this_malformed
                      (Samples.create_item Samples.admin_only)) Samples.w0) =
    Normal (mkResult 400 ∅ "ParseError: Malformed JSON body") /\
  outcome (execute (APIGatewayBaseHandler.APIGatewayBaseHandler
                      (SpecModel.mediators Samples.admin_only) Samples.this_item
                      (Samples.create_item Samples.admin_only)) Samples.w0) =
    Normal (mkResult 200 ∅
              ("{" ++ SpecModel.quoted "data" ++ ":{" ++ SpecModel.quoted "a" ++ ":1}}")).
Proof. repeat split; vm_compute; reflexivity. Qed.

(** * Further properties *)

(** ** The orchestrator on every path *)

(** In every invocation [execute] calls [handleRequest] exactly once and
    [handleError] at most once: not at all when [handleRequest] returns,
    once when it throws. *)
Theorem execute_calls_hooks {TEvent TResult}
    (this : BaseHandler TEvent TResult) (w : World) :
  let t := emitted (execute this w) in
  handleRequest_calls t = 1%nat /\
  (length (handleError_calls t) <= 1)%nat /\
  (handleError_calls t = [] <->
   exists result, outcome (handleRequest this w) = Normal result).
Proof.
  intros t. subst t.
  destruct (outcome (handleRequest this w)) as [result | v] eqn:Hreq.
  - rewrite (execute_Normal this w result Hreq). cbn.
    repeat split; [apply le_S, le_n | eexists; reflexivity].
  - assert (Hnot : ~ exists result : TResult, Throw v = Normal result)
      by (intros [result Hresult]; discriminate Hresult).
    destruct (instanceof_Error v) as [e |] eqn:Hkind.
    + destruct v; try discriminate Hkind. injection Hkind as ->.
      rewrite (execute_Throw_Error this w e Hreq). cbn.
      repeat split; [apply le_n | discriminate | intros H; destruct (Hnot H)].
    + rewrite (execute_Throw_other this w v Hreq Hkind). cbn.
      repeat split; [apply le_n | discriminate | intros H; destruct (Hnot H)].
Qed.

(** What [execute] returns was returned by [handleRequest] or by
    [handleError]; what it throws was thrown by [handleError], for the
    error it was called with: a throw of [handleRequest] never escapes as
    it is. *)
Theorem execute_outcome_origin {TEvent TResult}
    (this : BaseHandler TEvent TResult) (w : World) :
  let r := execute this w in
  match outcome r with
  | Normal result =>
      outcome (handleRequest this w) = Normal result \/
      exists e w', handleError_calls (emitted r) = [e] /\
                   outcome (handleError this e w') = Normal result
  | Throw v =>
      exists e w', handleError_calls (emitted r) = [e] /\
                   outcome (handleError this e w') = Throw v
  end.
Proof.
  intros r. subst r.
  destruct (outcome (handleRequest this w)) as [result | v] eqn:Hreq.
  - rewrite (execute_Normal this w result Hreq). cbn. left. reflexivity.
  - destruct (instanceof_Error v) as [e |] eqn:Hkind.
    + destruct v; try discriminate Hkind. injection Hkind as ->.
      rewrite (execute_Throw_Error this w e Hreq). cbn.
      destruct (outcome (handleError this e _)) eqn:Herr;
        [right |]; do 2 eexists; (split; [reflexivity | exact Herr]).
    + rewrite (execute_Throw_other this w v Hreq Hkind). cbn.
      destruct (outcome (handleError this _ _)) eqn:Herr;
        [right |]; do 2 eexists; (split; [reflexivity | exact Herr]).
Qed.

(** A Cognito handler resolves exactly when its [handleRequest] does, with
    the same event; when it fails, what escapes is always an error object:
    the thrown error itself, or the generic error for any other thrown
    value, which is lost. *)
Theorem cognito_execute_resolves_iff (event : JsValue)
    (request : JsValue -> Js LogEntry JsValue) (w : World) :
  let r := execute (CognitoBaseHandler.CognitoBaseHandler event request) w in
  (forall result, outcome r = Normal result <->
                  outcome (request event w) = Normal result) /\
  (forall v, outcome r = Throw v ->
     exists e, v = JsError e /\
       (outcome (request event w) = Throw (JsError e) \/
        exists thrown, outcome (request event w) = Throw thrown /\
                       instanceof_Error thrown = None /\
                       e = genericError (final (request event w)))).
Proof.
  intros r. subst r.
  set (this := CognitoBaseHandler.CognitoBaseHandler event request).
  change (request event w) with (handleRequest this w).
  destruct (outcome (handleRequest this w)) as [result | v] eqn:Hreq.
  - rewrite (execute_Normal this w result Hreq). cbn.
    split; [intros result'; reflexivity | intros v Hv; discriminate Hv].
  - destruct (instanceof_Error v) as [e |] eqn:Hkind.
    + destruct v; try discriminate Hkind. injection Hkind as ->.
      rewrite (execute_Throw_Error this w e Hreq). cbn. split.
      * intros result. split; intros H; discriminate H.
      * intros v [= <-]. exists e. split; [reflexivity | left; reflexivity].
    + rewrite (execute_Throw_other this w v Hreq Hkind). cbn. split.
      * intros result. split; intros H; discriminate H.
      * intros v' [= <-]. eexists. split; [reflexivity |].
        right. exists v. repeat split. exact Hkind.
Qed.

(** In the HTTP handler a failure of [handleRequest] is answered by the
    classifier alone: [execute] completes the way the classifier does for
    the thrown error (or the generic one) and the event of the instance,
    so what the classifier throws escapes. *)
Theorem http_execute_answers_with_classifier {ZodSchema : Type}
    (M : utils.Mediators ZodSchema) (this : APIGatewayBaseHandler.This ZodSchema)
    (request : APIGatewayBaseHandler.This ZodSchema -> Js LogEntry APIGatewayProxyResult)
    (w : World) (thrown : JsValue) :
  outcome (request this w) = Throw thrown ->
  let w1 := final (request this w) in
  let r := execute (APIGatewayBaseHandler.APIGatewayBaseHandler M this request) w in
  outcome r =
    match instanceof_Error thrown with
    | Some e => outcome (utils.handleError M e (APIGatewayBaseHandler.event this) w1)
    | None => outcome (utils.handleError M (genericError w1)
                         (APIGatewayBaseHandler.event this) (after_new_Error w1))
    end.
Proof.
  intros Hreq w1 r. subst r w1.
  set (handler := APIGatewayBaseHandler.APIGatewayBaseHandler M this request).
  change (request this w) with (handleRequest handler w) in *.
  destruct (instanceof_Error thrown) as [e |] eqn:Hkind.
  - destruct thrown; try discriminate Hkind. injection Hkind as ->.
    rewrite (execute_Throw_Error handler w e Hreq). reflexivity.
  - rewrite (execute_Throw_other handler w thrown Hreq Hkind). reflexivity.
Qed.

Lemma http_execute_answers_with_classifier_witness :
  outcome (Platforms.broken Samples.this_item Samples.w0) = Throw (JsString "boom") /\
  outcome (execute (APIGatewayBaseHandler.APIGatewayBaseHandler
                      (SpecModel.mediators Samples.no_roles) Samples.this_item
                      Platforms.broken) Samples.w0) =
    Normal (mkResult 500 ∅ "Internal Server Error").
Proof.
  split; [reflexivity |].
  exact (http_execute_answers_with_classifier
           (SpecModel.mediators Samples.no_roles) Samples.this_item
           Platforms.broken Samples.w0 (JsString "boom") eq_refl).
Defined.

(** ** Rules for runs *)

Section Rules.
Context {O : Type}.

Lemma wp_ret {A} (a : A) (Q : Completion A -> list O -> World -> Prop) w :
  Q (Normal a) [] w -> wp (mret a) Q w.
Proof. exact (fun H => H). Qed.

Lemma wp_throw {A} (v : JsValue) (Q : Completion A -> list O -> World -> Prop) w :
  Q (Throw v) [] w -> wp (throw v) Q w.
Proof. exact (fun H => H). Qed.

Lemma wp_emit (o : O) (Q : Completion unit -> list O -> World -> Prop) w :
  Q (Normal tt) [o] w -> wp (emit o) Q w.
Proof. exact (fun H => H). Qed.

Lemma wp_bind {A B} (m : Js O A) (k : A -> Js O B)
    (Q : Completion B -> list O -> World -> Prop) w :
  wp m (fun c t w1 =>
          match c with
          | Normal a => wp (k a) (fun c' t' w2 => Q c' (t ++ t')%list w2) w1
          | Throw v => Q (Throw v) t w1
          end) w ->
  wp (m ≫= k) Q w.
Proof.
  unfold wp, mbind, Js_bind, bind.
  destruct (outcome (m w)); cbn; exact (fun H => H).
Qed.

Lemma wp_try_catch {A} (body : Js O A) (handler : JsValue -> Js O A)
    (Q : Completion A -> list O -> World -> Prop) w :
  wp body (fun c t w1 =>
             match c with
             | Normal a => Q (Normal a) t w1
             | Throw v => wp (handler v) (fun c' t' w2 => Q c' (t ++ t')%list w2) w1
             end) w ->
  wp (try_catch body handler) Q w.
Proof.
  unfold wp, try_catch.
  destruct (outcome (body w)) eqn:Hbody; cbn.
  - rewrite Hbody. exact (fun H => H).
  - exact (fun H => H).
Qed.

Lemma wp_try_catch_finally {A} (body : Js O A) (handler : JsValue -> Js O A)
    (finalizer : Js O unit) (Q : Completion A -> list O -> World -> Prop) w :
  wp (try_catch body handler)
     (fun c t w1 =>
        wp finalizer
           (fun c' t' w2 =>
              match c' with
              | Normal _ => Q c (t ++ t')%list w2
              | Throw v => Q (Throw v) (t ++ t')%list w2
              end) w1) w ->
  wp (try_catch_finally body handler finalizer) Q w.
Proof.
  unfold wp, try_catch_finally.
  destruct (outcome (finalizer _)); cbn; exact (fun H => H).
Qed.

Lemma wp_construct_error (class msg : string)
    (Q : Completion ErrorObj -> list O -> World -> Prop) w :
  Q (Normal (mkError (next_ref w) class msg)) []
    (mkWorld (S (next_ref w)) (services w)) ->
  wp (construct_error class msg) Q w.
Proof. exact (fun H => H). Qed.

Lemma wp_get_member (v : JsValue) (k : string)
    (Q : Completion JsValue -> list O -> World -> Prop) w :
  (if is_nullish v
   then forall e, err_name e = "TypeError" -> Q (Throw (JsError e)) []
                    (mkWorld (S (next_ref w)) (services w))
   else Q (Normal (member v k)) [] w) ->
  wp (get_member v k) Q w.
Proof.
  unfold wp, get_member.
  destruct (is_nullish v); cbn; [| exact (fun H => H)].
  intros H. apply H. reflexivity.
Qed.

End Rules.

Lemma wp_call {A} (c : ExternalCall) (f : Ext A)
    (Q : Completion A -> list Event -> World -> Prop) w :
  (forall res w', f w = (res, w') -> Q res [Called c] w') -> wp (call c f) Q w.
Proof.
  intros H. unfold wp, call; cbn. apply H. destruct (f w); reflexivity.
Qed.

Lemma wp_json_parse (P : Platform) (text : string)
    (Q : Completion JsValue -> list Event -> World -> Prop) w :
  match JSON_parse P text with
  | inl v => Q (Normal v) [] w
  | inr msg => forall e, err_name e = "SyntaxError" ->
                 Q (Throw (JsError e)) [] (mkWorld (S (next_ref w)) (services w))
  end ->
  wp (json_parse P text) Q w.
Proof.
  unfold wp, json_parse.
  destruct (JSON_parse P text); cbn; [exact (fun H => H) |].
  intros H. apply H. reflexivity.
Qed.

(** One step of a run: the rule of the head of the program, then the case
    analysis it asks for; a case that a hypothesis decides is rewritten. *)
Ltac wp_case x :=
  first [ match goal with H : x = _ |- _ => rewrite H end
        | is_var x; destruct x
        | destruct x eqn:? ].

(** A condition that computes is computed. *)
Ltac wp_if b :=
  let b' := eval cbn in b in
  lazymatch b' with
  | true => change b with true
  | false => change b with false
  | _ => wp_case b
  end.

(** The answer of a call gets a name; what is known of the call is then
    known of the answer. *)
Ltac wp_answer :=
  let res := fresh "res" in
  let w' := fresh "w" in
  let Hcall := fresh "Hcall" in
  intros res w' Hcall;
  repeat match goal with
         | H : context [?f ?w0] |- _ =>
             lazymatch H with
             | Hcall => fail
             | _ => lazymatch type of Hcall with
                    | f w0 = _ => rewrite Hcall in H; cbn [fst snd] in H
                    end
             end
         end.

Ltac wp_step :=
  lazymatch goal with
  | |- wp (let x := ?v in _) _ _ => cbv zeta
  | |- wp (_ ≫= _) _ _ => apply wp_bind
  | |- wp (try_catch_finally _ _ _) _ _ => apply wp_try_catch_finally
  | |- wp (try_catch _ _) _ _ => apply wp_try_catch
  | |- wp (mret _) _ _ => apply wp_ret
  | |- wp (throw _) _ _ => apply wp_throw
  | |- wp (emit _) _ _ => apply wp_emit
  | |- wp (console.log _) _ _ => apply wp_emit
  | |- wp (console.error _) _ _ => apply wp_emit
  | |- wp (new_Error _) _ _ => apply wp_construct_error
  | |- wp (construct_error _ _) _ _ => apply wp_construct_error
  | |- wp (call _ _) _ _ => apply wp_call; wp_answer
  | |- wp (json_parse _ _) _ _ => apply wp_json_parse
  | |- wp (get_member _ _) _ _ => apply wp_get_member
  | |- wp (if ?b then _ else _) _ _ => wp_if b
  | |- (if ?b then _ else _) => wp_if b
  | |- match ?c with Normal _ => _ | Throw _ => _ end => wp_case c
  | |- match ?c with inl _ => _ | inr _ => _ end => wp_case c
  | |- forall e : ErrorObj, _ -> _ => intros ? ?
  end; cbv beta iota; cbn [app is_nullish].

(** The texts and the configuration of the client are kept folded while
    the program runs. *)
Ltac fold_texts :=
  repeat match goal with
         | |- context [String ?a ?rest] =>
             let text := fresh "text" in set (text := String a rest) in *
         end.

Ltac fold_client :=
  try match goal with
      | |- context [pg.mkConfig ?a ?b ?c ?d ?e ?f] =>
          let client := fresh "client" in
          set (client := pg.mkConfig a b c d e f) in *
      end.

Ltac unfold_all :=
  repeat match goal with
         | x := _ |- _ => subst x
         end.

Ltac wp_run := fold_texts; repeat (wp_step; fold_client); unfold_all.

(** [v || d] is truthy as soon as [d] is. *)
Lemma or_else_truthy (v d : JsValue) :
  to_boolean d = true -> to_boolean (or_else v d) = true.
Proof.
  intros Hd. unfold or_else. destruct (to_boolean v) eqn:Hv; [exact Hv | exact Hd].
Qed.

(** Membership in a list that is written out. *)
Ltac in_calls H :=
  cbn [calls_of flat_map app In] in H;
  repeat (destruct H as [H | H]; [try discriminate H |]);
  try contradiction.

Ltac in_list := cbn; repeat first [ left; reflexivity | right ].

Ltac not_in H :=
  cbn in H; repeat (destruct H as [H | H]; [discriminate H |]); exact H.

(** ** The Lambda function *)

(** Every run of the Lambda function at once: the order of its calls, the
    client it makes, what a 200 means, and when it answers. *)
Lemma handler_run (P : Platform) (w : World) :
  wp (Lambda.handler P)
     (fun c t _ =>
        let send := SecretsSend (env P !! "AWS_REGION")
                                (narrowed (env P !! "DB_SECRET_ARN")) in
        (forall client, In (PgConnect client) (calls_of t) ->
           pg.host client = JsString (narrowed (env P !! "DB_HOST")) /\
           to_boolean (pg.database client) = true /\
           to_boolean (pg.port client) = true /\
           pg.rejectUnauthorized client = false /\
           calls_of t `prefix_of`
             [send; PgConnect client; PgQuery client SelectNow; PgEnd client]) /\
        ((forall client, ~ In (PgConnect client) (calls_of t)) ->
           calls_of t `prefix_of` [send]) /\
        (forall response, c = Normal response ->
           Lambda.statusCode response = 200 ->
           (exists client,
              calls_of t = [send; PgConnect client; PgQuery client SelectNow;
                            PgEnd client]) /\
           forall args, ~ In (Stderr, args) (printed_of t)) /\
        (forall response, c = Normal response ->
           Lambda.statusCode response = 200 \/ Lambda.statusCode response = 500) /\
        (throws_no_nullish P -> exists response, c = Normal response))
     w.
Proof.
  unfold Lambda.handler, Lambda.region.
  wp_run.
  all: cbv zeta; cbn [calls_of flat_map app].
  all: split;
    [ intros client Hin; in_calls Hin;
      injection Hin as <-; cbn;
      repeat split; try (apply or_else_truthy; reflexivity);
      eexists; reflexivity |].
  all: split;
    [ intros Hnone; first [ eexists; reflexivity
                          | exfalso; eapply Hnone; cbn; eauto 10 ] |].
  all: split;
    [ intros response Hc;
      first [ discriminate Hc
            | injection Hc as <-; cbn; intros Hstatus;
              first [ discriminate Hstatus
                    | split; [eexists; reflexivity |];
                      intros args Hin; cbn in Hin;
                      repeat (destruct Hin as [Hin | Hin]; [discriminate Hin |]);
                      exact Hin ] ]
    |].
  all: split;
    [ intros response Hc;
      first [ discriminate Hc | injection Hc as <-; cbn; auto ] |].
  all: intros (Hsend & Hconnect & Hquery & Hend);
    first [ eexists; reflexivity | exfalso ].
  all: match goal with
       | Hcall : _ = (Throw ?v, _), Hv : is_nullish ?v = true |- _ =>
           apply (f_equal fst) in Hcall; cbn [fst] in Hcall;
           first [ apply Hsend in Hcall | apply Hconnect in Hcall
                 | apply Hquery in Hcall | apply Hend in Hcall ];
           rewrite Hcall in Hv; discriminate Hv
       end.
Qed.

(** When [DB_SECRET_ARN] or [DB_HOST] is missing or empty the Lambda
    function answers 500 with a fixed body, calls neither the Secrets
    Manager nor the database, and leaves the world as it was. *)
Theorem handler_missing_environment (P : Platform) (w : World) :
  truthy (env P !! "DB_SECRET_ARN") = false \/ truthy (env P !! "DB_HOST") = false ->
  outcome (Lambda.handler P w) =
    Normal (Lambda.mkResponse 500
              (JSON_stringify P
                 (JsObject [("error",
                             JsString "Missing environment variables DB_SECRET_ARN or DB_HOST")]))) /\
  calls_of (emitted (Lambda.handler P w)) = [] /\
  final (Lambda.handler P w) = w.
Proof.
  intros Hmissing.
  assert (Hcond : negb (truthy (env P !! "DB_SECRET_ARN"))
                  || negb (truthy (env P !! "DB_HOST")) = true).
  { destruct Hmissing as [-> | ->]; [reflexivity | apply orb_true_r]. }
  change (wp (Lambda.handler P)
            (fun c t w' =>
               c = Normal (Lambda.mkResponse 500
                             (JSON_stringify P
                                (JsObject [("error",
                                            JsString "Missing environment variables DB_SECRET_ARN or DB_HOST")]))) /\
               calls_of t = [] /\ w' = w) w).
  unfold Lambda.handler. wp_run. repeat split; reflexivity.
Qed.

(** Whatever the Secrets Manager answers is written to the console in
    clear, and so is the parsed secret once it parses. *)
Theorem handler_secret_logged (P : Platform) (w : World) (s : option string) :
  truthy (env P !! "DB_SECRET_ARN") = true ->
  truthy (env P !! "DB_HOST") = true ->
  fst (secrets_send P (env P !! "AWS_REGION") (narrowed (env P !! "DB_SECRET_ARN")) w)
    = Normal s ->
  let t := emitted (Lambda.handler P w) in
  In (Stdout, [JsString "SecretString"; of_optional s]) (printed_of t) /\
  (forall secret, truthy s = true -> JSON_parse P (narrowed s) = inl secret ->
     In (Stdout, [JsString "🔍 Parsed secret data:"; secret]) (printed_of t)).
Proof.
  intros Harn Hhost Hsend t. subst t.
  change (wp (Lambda.handler P)
            (fun _ t _ =>
               In (Stdout, [JsString "SecretString"; of_optional s]) (printed_of t) /\
               (forall secret, truthy s = true -> JSON_parse P (narrowed s) = inl secret ->
                  In (Stdout, [JsString "🔍 Parsed secret data:"; secret]) (printed_of t))) w).
  unfold Lambda.handler, Lambda.region. rewrite Harn, Hhost.
  wp_run.
  all: split; [in_list |].
  all: intros secret Htruthy Hparse.
  all: try (match goal with
            | Hempty : negb (truthy _) = true |- _ =>
                rewrite Htruthy in Hempty; cbn in Hempty; discriminate Hempty
            end).
  all: try congruence.
  all: match goal with
       | Hj : JSON_parse _ _ = inl ?j |- _ =>
           replace secret with j by congruence; solve [in_list]
       end.
Qed.


(** When the queries of the database fail, the Lambda function never
    closes the client, connected or not, and answers 500 if it answers. *)
Theorem handler_query_failure_leaks (P : Platform) (w : World) :
  (forall c q w', exists v, fst (pg_query P c q w') = Throw v) ->
  let r := Lambda.handler P w in
  ends_of (emitted r) = 0%nat /\
  forall response, outcome r = Normal response -> Lambda.statusCode response = 500.
Proof.
  intros Hfails r. subst r.
  change (wp (Lambda.handler P)
            (fun c t _ =>
               ends_of t = 0%nat /\
               forall response, c = Normal response ->
                                Lambda.statusCode response = 500) w).
  unfold Lambda.handler, Lambda.region.
  wp_run.
  all: try (exfalso;
            match goal with
            | Hcall : pg_query _ ?c ?q ?w0 = (Normal _, _) |- _ =>
                destruct (Hfails c q w0) as [v' Hv']; rewrite Hcall in Hv';
                cbn in Hv'; discriminate Hv'
            end).
  all: split; [reflexivity |].
  all: intros response Hc; first [discriminate Hc | injection Hc as <-; reflexivity].
Qed.

(** ** The reset script *)

(** Every run of [resetDatabase] at once: the closing of the client, the
    order of the queries, and where a rejection can come from. *)
Lemma resetDatabase_run (P : Platform) (w : World) :
  wp (ResetDatabase.resetDatabase P)
     (fun c t _ =>
        let send := SecretsSend (env P !! "AWS_REGION")
                                (narrowed (env P !! "DB_SECRET_ARN")) in
        (forall client, In (PgConnect client) (calls_of t) ->
           ends_of t = 1%nat /\
           last (calls_of t) = Some (PgEnd client) /\
           to_boolean (pg.port client) = true /\
           pg.rejectUnauthorized client = false) /\
        ((forall client, ~ In (PgConnect client) (calls_of t)) ->
           calls_of t `prefix_of` [send] /\ exists v, c = Throw v) /\
        queries_of t `prefix_of` reset_queries /\
        (In (Stdout, [JsString "🎉 Database successfully reset!"]) (printed_of t) ->
           queries_of t = reset_queries /\
           forall args, ~ In (Stderr, args) (printed_of t)) /\
        (forall v, c = Throw v ->
           (forall client, ~ In (PgConnect client) (calls_of t)) \/
           exists client w', In (PgEnd client) (calls_of t) /\
                             fst (pg_end P client w') = Throw v))
     w.
Proof.
  unfold ResetDatabase.resetDatabase, ResetDatabase.getDbCredentials,
    ResetDatabase.clientConfig, ResetDatabase.region,
    ResetDatabase.dropAllTablesAndViews, ResetDatabase.createSchema,
    ResetDatabase.createMetadataView, ResetDatabase.testInsertMetadata,
    ResetDatabase.testSelectMetadata, ResetDatabase.testUpdateMetadata,
    ResetDatabase.testDeleteMetadata, ResetDatabase.query.
  wp_run.
  all: cbv zeta; cbn [calls_of queries_of flat_map app].
  all: split;
    [ intros client Hin; in_calls Hin;
      injection Hin as <-; cbn;
      repeat split; apply or_else_truthy; reflexivity |].
  all: split;
    [ intros Hnone;
      first [ split; eexists; reflexivity
            | exfalso; eapply Hnone; right; left; reflexivity ] |].
  all: split; [unfold reset_queries; eexists; reflexivity |].
  all: split;
    [ intros Hin;
      first [ solve [exfalso; not_in Hin]
            | clear Hin; split; [reflexivity | intros args Hs; not_in Hs] ] |].
  all: intros v' Hc;
    first [ discriminate Hc
          | injection Hc as <-;
            first [ left; intros client Hin; solve [in_calls Hin]
                  | right;
                    match goal with
                    | Hcall : pg_end _ ?c ?w0 = (Throw _, _) |- _ =>
                        exists c, w0; split;
                        [in_list | rewrite Hcall; reflexivity]
                    end ] ].
Qed.

(** [getDbCredentials] returns the parsed secret only when the variable
    is set and not empty, the answer carries a secret that is not empty
    and the secret parses.  It fails before any call when the variable is
    missing or empty, with what [send] threw, with an [Error] when the
    secret is missing or empty, and with the SyntaxError of [JSON.parse]. *)
Theorem getDbCredentials_outcomes (P : Platform) (w : World) :
  let r := ResetDatabase.getDbCredentials P w in
  let arn := env P !! "DB_SECRET_ARN" in
  let send := SecretsSend (env P !! "AWS_REGION") (narrowed arn) in
  let answer := fst (secrets_send P (env P !! "AWS_REGION") (narrowed arn) w) in
  match outcome r with
  | Normal secret =>
      truthy arn = true /\
      emitted r = [Called send] /\
      exists s, answer = Normal s /\ truthy s = true /\
                JSON_parse P (narrowed s) = inl secret
  | Throw x =>
      (truthy arn = false /\ emitted r = [] /\
       x = JsError (mkError (next_ref w) "Error"
                            "Missing DB_SECRET_ARN environment variable.")) \/
      (truthy arn = true /\ emitted r = [Called send] /\
       (answer = Throw x \/
        (exists s e, answer = Normal s /\ truthy s = false /\ x = JsError e /\
                     err_name e = "Error" /\
                     err_message e = "SecretString is empty.") \/
        (exists s msg e, answer = Normal s /\ truthy s = true /\
                         JSON_parse P (narrowed s) = inr msg /\
                         x = JsError e /\ err_name e = "SyntaxError")))
  end.
Proof.
  intros r arn send answer. subst r arn send answer.
  change (wp (ResetDatabase.getDbCredentials P)
            (fun c t _ =>
               match c with
               | Normal secret =>
                   truthy (env P !! "DB_SECRET_ARN") = true /\
                   t = [Called (SecretsSend (env P !! "AWS_REGION")
                                  (narrowed (env P !! "DB_SECRET_ARN")))] /\
                   exists s,
                     fst (secrets_send P (env P !! "AWS_REGION")
                            (narrowed (env P !! "DB_SECRET_ARN")) w) = Normal s /\
                     truthy s = true /\ JSON_parse P (narrowed s) = inl secret
               | Throw x =>
                   (truthy (env P !! "DB_SECRET_ARN") = false /\ t = [] /\
                    x = JsError (mkError (next_ref w) "Error"
                                   "Missing DB_SECRET_ARN environment variable.")) \/
                   (truthy (env P !! "DB_SECRET_ARN") = true /\
                    t = [Called (SecretsSend (env P !! "AWS_REGION")
                                   (narrowed (env P !! "DB_SECRET_ARN")))] /\
                    (fst (secrets_send P (env P !! "AWS_REGION")
                            (narrowed (env P !! "DB_SECRET_ARN")) w) = Throw x \/
                     (exists s e,
                        fst (secrets_send P (env P !! "AWS_REGION")
                               (narrowed (env P !! "DB_SECRET_ARN")) w) = Normal s /\
                        truthy s = false /\ x = JsError e /\
                        err_name e = "Error" /\
                        err_message e = "SecretString is empty.") \/
                     (exists s msg e,
                        fst (secrets_send P (env P !! "AWS_REGION")
                               (narrowed (env P !! "DB_SECRET_ARN")) w) = Normal s /\
                        truthy s = true /\
                        JSON_parse P (narrowed s) = inr msg /\
                        x = JsError e /\ err_name e = "SyntaxError")))
               end) w).
  unfold ResetDatabase.getDbCredentials, ResetDatabase.region.
  destruct (truthy (env P !! "DB_SECRET_ARN")) eqn:Harn; cbn [negb].
  - wp_run.
    all: match goal with
         | Hcall : secrets_send _ _ _ _ = _ |- _ => rewrite Hcall; cbn [fst]
         end.
    + right. split; [reflexivity |]. split; [reflexivity |].
      right. left. do 2 eexists.
      split; [reflexivity |].
      split; [apply negb_true_iff; assumption |].
      repeat split.
    + split; [reflexivity |]. split; [reflexivity |].
      eexists. split; [reflexivity |].
      split; [apply negb_false_iff; assumption | assumption].
    + right. split; [reflexivity |]. split; [reflexivity |].
      right. right. do 3 eexists.
      split; [reflexivity |].
      split; [apply negb_false_iff; assumption |].
      split; [eassumption |]. split; [reflexivity | assumption].
    + right. split; [reflexivity |]. split; [reflexivity |].
      left. reflexivity.
  - wp_run. left. repeat split.
Qed.


(** When the Lambda function answers 200 it has made the four calls, all
    of which returned, and has written nothing to the error stream. *)
Theorem handler_success (P : Platform) (w : World) (response : Lambda.Response) :
  outcome (Lambda.handler P w) = Normal response ->
  Lambda.statusCode response = 200 ->
  let t := emitted (Lambda.handler P w) in
  (exists client,
     calls_of t =
       [SecretsSend (env P !! "AWS_REGION") (narrowed (env P !! "DB_SECRET_ARN"));
        PgConnect client; PgQuery client SelectNow; PgEnd client]) /\
  forall args, ~ In (Stderr, args) (printed_of t).
Proof.
  intros Hout Hstatus t. subst t.
  destruct (handler_run P w) as (_ & _ & Hok & _).
  exact (Hok response Hout Hstatus).
Qed.


(** Once [resetDatabase] has tried to connect it closes the client exactly
    once, as its last call, whatever failed in between.  When it does not
    get as far as connecting it has called nothing but the Secrets
    Manager, and it rejects. *)
Theorem resetDatabase_closes_connection (P : Platform) (w : World) :
  let r := ResetDatabase.resetDatabase P w in
  let t := emitted r in
  (forall client, In (PgConnect client) (calls_of t) ->
     ends_of t = 1%nat /\
     last (calls_of t) = Some (PgEnd client) /\
     to_boolean (pg.port client) = true /\
     pg.rejectUnauthorized client = false) /\
  ((forall client, ~ In (PgConnect client) (calls_of t)) ->
     calls_of t `prefix_of`
       [SecretsSend (env P !! "AWS_REGION") (narrowed (env P !! "DB_SECRET_ARN"))] /\
     exists v, outcome r = Throw v).
Proof.
  intros r t. subst t r.
  destruct (resetDatabase_run P w) as (Hconnect & Hnone & _).
  split; [exact Hconnect | exact Hnone].
Qed.


(** A failure between connect and the last query does not make
    [resetDatabase] reject: when it rejects, either it never got as far as
    connecting, or closing the client threw what it rejects with. *)
Theorem resetDatabase_rejections (P : Platform) (w : World) (v : JsValue) :
  outcome (ResetDatabase.resetDatabase P w) = Throw v ->
  let t := emitted (ResetDatabase.resetDatabase P w) in
  (forall client, ~ In (PgConnect client) (calls_of t)) \/
  exists client w', In (PgEnd client) (calls_of t) /\
                    fst (pg_end P client w') = Throw v.
Proof.
  intros Hout t. subst t.
  destruct (resetDatabase_run P w) as (_ & _ & _ & _ & Hthrow).
  exact (Hthrow v Hout).
Qed.

(** ** The scripts on the sample platforms *)


Lemma handler_missing_environment_witness :
  (truthy (env Platforms.unconfigured !! "DB_SECRET_ARN") = false \/
   truthy (env Platforms.unconfigured !! "DB_HOST") = false) /\
  calls_of (emitted (Lambda.handler Platforms.unconfigured Samples.w0)) = [].
Proof.
  split; [left; reflexivity |].
  exact (proj1 (proj2 (handler_missing_environment Platforms.unconfigured Samples.w0
                         (or_introl eq_refl)))).
Defined.

Lemma handler_secret_logged_witness :
  truthy (env Platforms.healthy !! "DB_SECRET_ARN") = true /\
  truthy (env Platforms.healthy !! "DB_HOST") = true /\
  In (Stdout, [JsString "SecretString"; JsString Platforms.secret_text])
     (printed_of (emitted (Lambda.handler Platforms.healthy Samples.w0))).
Proof.
  split; [reflexivity |]. split; [reflexivity |].
  exact (proj1 (handler_secret_logged Platforms.healthy Samples.w0
                  (Some Platforms.secret_text) eq_refl eq_refl eq_refl)).
Defined.


Lemma handler_query_failure_leaks_witness :
  (forall c q w', exists v, fst (pg_query Platforms.failing_queries c q w') = Throw v) /\
  ends_of (emitted (Lambda.handler Platforms.failing_queries Samples.w0)) = 0%nat.
Proof.
  assert (Hfails : forall c q w',
             exists v, fst (pg_query Platforms.failing_queries c q w') = Throw v)
    by (intros c q w'; eexists; reflexivity).
  split; [exact Hfails |].
  exact (proj1 (handler_query_failure_leaks Platforms.failing_queries Samples.w0 Hfails)).
Defined.

Lemma handler_success_witness :
  outcome (Lambda.handler Platforms.healthy Samples.w0) =
    Normal (Lambda.mkResponse 200
              (JSON_stringify Platforms.healthy
                 (JsObject [("message", JsString "Connected!");
                            ("time", JsString "2025-01-01T00:00:00.000Z")]))) /\
  forall args, ~ In (Stderr, args)
                    (printed_of (emitted (Lambda.handler Platforms.healthy Samples.w0))).
Proof.
  assert (Hout : outcome (Lambda.handler Platforms.healthy Samples.w0) =
                 Normal (Lambda.mkResponse 200
                           (JSON_stringify Platforms.healthy
                              (JsObject [("message", JsString "Connected!");
                                         ("time", JsString "2025-01-01T00:00:00.000Z")]))))
    by (vm_compute; reflexivity).
  split; [exact Hout |].
  exact (proj2 (handler_success Platforms.healthy Samples.w0 _ Hout eq_refl)).
Defined.


Lemma resetDatabase_rejections_witness :
  outcome (ResetDatabase.resetDatabase Platforms.denied Samples.w0) =
    Throw (JsError Platforms.access_denied) /\
  ((forall client,
      ~ In (PgConnect client)
           (calls_of (emitted (ResetDatabase.resetDatabase Platforms.denied Samples.w0)))) \/
   exists client w',
     In (PgEnd client)
        (calls_of (emitted (ResetDatabase.resetDatabase Platforms.denied Samples.w0))) /\
     fst (pg_end Platforms.denied client w') = Throw (JsError Platforms.access_denied)).
Proof.
  assert (Hout : outcome (ResetDatabase.resetDatabase Platforms.denied Samples.w0) =
                 Throw (JsError Platforms.access_denied))
    by (vm_compute; reflexivity).
  split; [exact Hout |].
  exact (resetDatabase_rejections Platforms.denied Samples.w0 _ Hout).
Defined.

(** With a database whose queries fail: the Lambda function answers 500
    with the message of the error and leaves the connection open; the
    reset script prints the error, closes the connection and resolves. *)
Example failing_queries_runs :
  outcome (Lambda.handler Platforms.failing_queries Samples.w0) =
    Normal (Lambda.mkResponse 500
              (JSON_stringify Platforms.failing_queries
                 (JsObject [("error", JsString "Query read timeout")]))) /\
  (exists client,
     calls_of (emitted (Lambda.handler Platforms.failing_queries Samples.w0)) =
       [SecretsSend (Some "us-east-1")
          "arn:aws:secretsmanager:us-east-1:582347504313:secret:db";
        PgConnect client; PgQuery client SelectNow]) /\
  outcome (ResetDatabase.resetDatabase Platforms.failing_queries Samples.w0) = Normal tt /\
  queries_of (emitted (ResetDatabase.resetDatabase Platforms.failing_queries Samples.w0)) =
    [DropMetadataView] /\
  ends_of (emitted (ResetDatabase.resetDatabase Platforms.failing_queries Samples.w0)) =
    1%nat.
Proof.
  split; [vm_compute; reflexivity |].
  split; [eexists; vm_compute; reflexivity |].
  repeat split; vm_compute; reflexivity.
Qed.


